(** * Kernel bootstrap scripts of the sandbox root file system

    A shallow embedding of [packages/fc-rootfs/start_up.py] (readiness
    polling, session creation, connection discovery, pre-warm execution,
    process supervision) and of [packages/fc-rootfs/monitor.py] (the rotating
    metrics log), together with the properties the specification states
    about them.

    Conventions of the embedding:
    - Python exceptions are the [Raise] outcome of a small state-and-error
      monad [M]; a coroutine that never returns is the [Blocked] outcome.
    - Time is counted in milliseconds ([N]); [asyncio.sleep(0.1)] advances
      the clock by 100.
    - Everything the scripts do to their surroundings (requests sent, lines
      printed, sleeps, child process calls) is appended to [trace]; files
      written live in [files]; the asyncio task spawned by
      [execute_cmd_in_jupyter] lives in [drain].
    - What the surroundings answer (probe results, the body of the session
      response, the runtime directory listing, the messages of the kernel) is
      an explicit argument of each function; what the host is like (the home
      directory, which files can be opened for writing, what a glob with
      metacharacters in its directory part finds, how long a submission takes
      and how late a timer fires) is a variable of the section [Host]. *)

From Stdlib Require Import Ascii String ZArith NArith Lia.
From stdpp Require Import base option list strings gmap sets pretty.

Set Warnings "-register-all".

(** ** Python values and exceptions *)

Module Py.

(** The exceptions the two scripts can end with. *)
Inductive exn : Type :=
| KeyError (key : string)
| TypeError
| AssertionError
| IndexError
| TimeoutError
| OSError
| Exception (msg : string).

(** How a call ends: with a value, with an exception, or never. *)
Inductive outcome (A : Type) : Type :=
| Ok (a : A)
| Raise (e : exn)
| Blocked.
Arguments Ok {A} a.
Arguments Raise {A} e.
Arguments Blocked {A}.

Definition is_raise {A} (o : outcome A) : bool :=
  match o with Raise _ => true | _ => false end.

(** A parsed JSON document, as [resp.json()] returns it: objects are Python
    dicts (insertion ordered), arrays are lists. *)
Inductive json : Type :=
| JNull
| JBool (b : bool)
| JNum (z : Z)
| JStr (s : string)
| JArr (items : list json)
| JObj (fields : list (string * json)).

Fixpoint assoc (k : string) (fields : list (string * json)) : option json :=
  match fields with
  | [] => None
  | (k', v) :: rest => if String.eqb k k' then Some v else assoc k rest
  end.

(** [v[k]] for a string key [k]: a dict without the key raises [KeyError],
    anything that is not a dict raises [TypeError]. *)
Definition getitem (v : json) (k : string) : outcome json :=
  match v with
  | JObj fields =>
      match assoc k fields with
      | Some x => Ok x
      | None => Raise (KeyError k)
      end
  | _ => Raise TypeError
  end.

(** [v[k1][k2]] *)
Definition getitem2 (v : json) (k1 k2 : string) : outcome json :=
  match getitem v k1 with
  | Ok x => getitem x k2
  | o => o
  end.

(** [v != s] for a str literal [s]. *)
Definition ne_str (v : json) (s : string) : bool :=
  match v with
  | JStr t => negb (String.eqb t s)
  | _ => true
  end.

(** ** [os.path.join] on POSIX *)

Fixpoint last_char (s : string) : option ascii :=
  match s with
  | EmptyString => None
  | String c rest =>
      match rest with
      | EmptyString => Some c
      | String _ _ => last_char rest
      end
  end.

Definition is_sep (c : ascii) : bool := Ascii.eqb c "/"%char.

Definition starts_with_sep (s : string) : bool :=
  match s with
  | String c _ => is_sep c
  | EmptyString => false
  end.

Definition ends_with_sep (s : string) : bool :=
  match last_char s with
  | Some c => is_sep c
  | None => false
  end.

Definition path_join (a b : string) : string :=
  if starts_with_sep b then b
  else if (String.eqb a "" || ends_with_sep a)%bool then a +:+ b
  else a +:+ "/" +:+ b.

(** [fnmatch] against a pattern [pre*suf] whose two parts hold no
    metacharacter: the name starts with [pre] and what follows ends with
    [suf]. *)
Definition is_suffix (suf s : string) : bool :=
  let n := String.length s in
  let m := String.length suf in
  (m <=? n)%nat && String.eqb (String.substring (n - m) m s) suf.

Definition fnmatch_star (pre suf name : string) : bool :=
  String.prefix pre name
  && is_suffix suf
       (String.substring (String.length pre)
          (String.length name - String.length pre) name).

(** [glob.has_magic]: the string holds one of [*], [?] and [[]. *)
Fixpoint has_magic (s : string) : bool :=
  match s with
  | EmptyString => false
  | String c rest =>
      Ascii.eqb c "*"%char || Ascii.eqb c "?"%char || Ascii.eqb c "["%char
      || has_magic rest
  end.

(** [needle in haystack] *)
Definition contains (needle haystack : string) : Prop :=
  ∃ before after, haystack = before +:+ needle +:+ after.

End Py.

Import Py.

(** ** The bootstrap script [start_up.py] *)

Module StartUp.

Definition BASE_URL : string := "http://localhost:8888".
Definition SESSION_KERNEL_NAME : string := "python3".

(** The pre-warm command: imports of some popular packages. *)
Definition JUPYTER_CMD : string := "
import matplotlib
import numpy
import matplotlib.pyplot
import pandas
import seaborn
import sklearn
".

(** Lines the script prints. *)
Inductive output : Type :=
| WaitingForServer
| ServerStartTook (elapsed : N)
| RecvIopub (m : json)
| ExecuteFinished (reply : json) (elapsed : N).

(** What the script does to its surroundings, in order. *)
Inductive action : Type :=
| Spawn (argv : list string)
| HttpGet (url : string)
| HttpPost (url : string) (payload : json)
| Print (o : output)
| Sleep (ms : N)
| StartChannels (connection_file : string)
| Execute (cmd : string)
| WaitChild.

(** The asyncio task created for [handle_iopub_msg]. *)
Inductive task_state : Type :=
| TaskWaiting
| TaskFinished
| TaskCancelled.

Record world : Type := World {
  now : N;
  trace : list action;
  files : gmap string string;
  drain : option task_state
}.

(** The world when the script starts: no file written yet, no task. *)
Definition boot : world := World 0 [] ∅ None.

Definition M (A : Type) : Type := world → outcome A * world.

#[global] Instance M_ret : MRet M := λ A a w, (Ok a, w).

#[global] Instance M_bind : MBind M := λ A B f c w,
  match c w with
  | (Ok a, w') => f a w'
  | (Raise e, w') => (Raise e, w')
  | (Blocked, w') => (Blocked, w')
  end.

Definition raise {A} (e : exn) : M A := λ w, (Raise e, w).

Definition emit (a : action) : M unit := λ w,
  (Ok tt, World (now w) (trace w ++ [a]) (files w) (drain w)).

Definition advance (ms : N) : M unit := λ w,
  (Ok tt, World (now w + ms) (trace w) (files w) (drain w)).

(** [time.time()] *)
Definition time : M N := λ w, (Ok (now w), w).

(** [await asyncio.sleep(...)] *)
Definition sleep (ms : N) : M unit := emit (Sleep ms);; advance ms.

Definition print (o : output) : M unit := emit (Print o).

(** [open(path, "w")]: where the host lets the file be opened for writing
    it is created or truncated; where it does not (its directory is missing,
    for one: nothing in the script creates a directory) the call raises
    [FileNotFoundError] or another [OSError] and no file changes. *)
Definition open_w (writable : string → bool) (path : string) : M unit := λ w,
  if writable path
  then (Ok tt, World (now w) (trace w) (<[path := ""]> (files w)) (drain w))
  else (Raise OSError, w).

(** [f.write(v)]: only a str can be written to a text file. *)
Definition write (path : string) (v : json) : M unit := λ w,
  match v with
  | JStr s =>
      (Ok tt, World (now w) (trace w) (<[path := s]> (files w)) (drain w))
  | _ => (Raise TypeError, w)
  end.

Definition set_drain (t : option task_state) : M unit := λ w,
  (Ok tt, World (now w) (trace w) (files w) t).

Definition lift {A} (o : outcome A) : M A := λ w, (o, w).

Definition blocked {A} : M A := λ w, (Blocked, w).

(** Waiting with a timeout that expires: the wait is over [late]
    milliseconds after the deadline, [late] being how late the timer fires
    and the waiting coroutine is resumed. *)
Definition wait_until (deadline late : N) : M unit := λ w,
  (Ok tt,
   World (N.max (now w) (deadline + late)) (trace w) (files w) (drain w)).

Definition count_gets (tr : list action) : nat :=
  length (List.filter (λ a, match a with HttpGet _ => true | _ => false end) tr).

Definition count_sleeps (tr : list action) : nat :=
  length (List.filter (λ a, match a with Sleep _ => true | _ => false end) tr).

(** *** Readiness polling *)

(** One probe of the status endpoint: what came back, and how long the
    request took. *)
Inductive probe_answer : Type :=
| Responded (status : Z)
| Unreachable.

Record probe : Type := Probe {
  answer : probe_answer;
  took : N
}.

(** [if resp.status == 200: break], with the [except Exception: pass]
    around the request. *)
Definition ready (a : probe_answer) : bool :=
  match a with
  | Responded status => Z.eqb status 200
  | Unreachable => false
  end.

(** The [while True] loop. The probes are the answers the endpoint gives
    from now on; when they run out without a 200 the loop is still
    polling. *)
Fixpoint poll (probes : list probe) (counter : nat) : M unit :=
  match probes with
  | [] => blocked
  | p :: rest =>
      emit (HttpGet (BASE_URL +:+ "/api/status"));;
      advance (took p);;
      if ready (answer p) then mret tt
      else
        let counter := S counter in
        (if (counter mod 20 =? 0)%nat then print WaitingForServer else mret tt);;
        sleep 100;;
        poll rest counter
  end.

(** What one turn of the loop appends to the trace when the probe fails. *)
Definition failed_turn (counter : nat) : list action :=
  HttpGet (BASE_URL +:+ "/api/status")
  :: (if (S counter mod 20 =? 0)%nat then [Print WaitingForServer] else [])
  ++ [Sleep 100].

(** The time the requests of a probe sequence take altogether. *)
Definition total_took (probes : list probe) : N :=
  foldr (λ p acc, took p + acc)%N 0%N probes.

Definition wait_for_server (probes : list probe) : M unit :=
  start_time ← time;
  poll probes 0;;
  end_time ← time;
  print (ServerStartTook (end_time - start_time)).

(** *** The kernel, as the execution client sees it *)

Inductive kernel_event : Type :=
| Iopub (m : json)
| Shell (parent_msg_id : string) (m : json).

(** A message of the kernel and the time since the previous one. *)
Record arrival : Type := Arrival {
  gap : N;
  event : kernel_event
}.

Record kernel : Type := Kernel {
  runtime_listing : list string;
  msg_id : string;
  arrivals : list arrival
}.

(** The body of the task [t]: one [get_iopub_msg], one line printed. When
    the task is not waiting any more the message stays on the channel. *)
Definition handle_iopub_msg (m : json) : M unit := λ w,
  match drain w with
  | Some TaskWaiting => (print (RecvIopub m);; set_drain (Some TaskFinished)) w
  | _ => (Ok tt, w)
  end.

(** [t.cancel()] *)
Definition cancel (w : world) : world :=
  match drain w with
  | Some TaskWaiting => World (now w) (trace w) (files w) (Some TaskCancelled)
  | _ => w
  end.

Definition cancel_drain : M unit := λ w, (Ok tt, cancel w).

(** [client._recv_reply(msg_id, timeout)] with the task [t] running on the
    same loop: shell messages of other requests are skipped, the first one
    whose parent is [msg_id] is the reply, and a message that comes after the
    deadline is not seen. The gaps of the arrivals are counted from the
    moment the wait starts, up to the moment the message is handed to the
    coroutine that waits for it; a timeout is noticed [late] milliseconds
    after the deadline. *)
Fixpoint await_reply (late : N) (msg_id : string) (deadline : N)
    (arrivals : list arrival) : M json :=
  match arrivals with
  | [] => wait_until deadline late;; raise TimeoutError
  | a :: rest =>
      t ← time;
      if (deadline <? t + gap a)%N
      then wait_until deadline late;; raise TimeoutError
      else
        advance (gap a);;
        match event a with
        | Iopub m => handle_iopub_msg m;; await_reply late msg_id deadline rest
        | Shell parent m =>
            if String.eqb parent msg_id then mret m
            else await_reply late msg_id deadline rest
        end
  end.

Definition recv_reply (late : N) (msg_id : string) (timeout : N)
    (arrivals : list arrival) : M json :=
  t ← time;
  await_reply late msg_id (t + timeout) arrivals.

(** The reply to request [msg_id] that comes within [budget] milliseconds,
    with the time it comes at: what the specification calls the correlated
    reply. *)
Fixpoint correlated_reply (msg_id : string) (budget : N)
    (arrivals : list arrival) : option (json * N) :=
  match arrivals with
  | [] => None
  | a :: rest =>
      if (budget <? gap a)%N then None
      else
        let later :=
          (λ r : json * N, (r.1, gap a + r.2)%N)
            <$> correlated_reply msg_id (budget - gap a) rest in
        match event a with
        | Iopub _ => later
        | Shell parent m =>
            if String.eqb parent msg_id then Some (m, gap a) else later
        end
  end.

(** The first side-channel message that comes before the reply and within
    the budget. *)
Fixpoint first_iopub (msg_id : string) (budget : N) (arrivals : list arrival)
  : option json :=
  match arrivals with
  | [] => None
  | a :: rest =>
      if (budget <? gap a)%N then None
      else
        match event a with
        | Iopub m => Some m
        | Shell parent _ =>
            if String.eqb parent msg_id then None
            else first_iopub msg_id (budget - gap a) rest
        end
  end.

(** The side-channel messages that come before the reply and within the
    budget. *)
Fixpoint iopub_before_reply (msg_id : string) (budget : N)
    (arrivals : list arrival) : list json :=
  match arrivals with
  | [] => []
  | a :: rest =>
      if (budget <? gap a)%N then []
      else
        match event a with
        | Iopub m => m :: iopub_before_reply msg_id (budget - gap a) rest
        | Shell parent _ =>
            if String.eqb parent msg_id then []
            else iopub_before_reply msg_id (budget - gap a) rest
        end
  end.

(** The same kernel without its side-channel messages: every other message
    comes when it came. *)
Fixpoint without_iopub (carry : N) (arrivals : list arrival) : list arrival :=
  match arrivals with
  | [] => []
  | a :: rest =>
      match event a with
      | Iopub _ => without_iopub (carry + gap a) rest
      | Shell _ _ => Arrival (carry + gap a) (event a) :: without_iopub 0 rest
      end
  end.

(** The side-channel messages and the replies a trace shows as printed. *)
Definition held_open (tr : list action) : bool :=
  existsb (λ a, match a with Sleep 100000 => true | _ => false end) tr.

Definition waited_for_child (tr : list action) : bool :=
  existsb (λ a, match a with WaitChild => true | _ => false end) tr.

Definition count_waiting (tr : list action) : nat :=
  length (List.filter
            (λ a, match a with Print WaitingForServer => true | _ => false end)
            tr).

Definition count_posts (tr : list action) : nat :=
  length (List.filter (λ a, match a with HttpPost _ _ => true | _ => false end)
            tr).

(** Whether the kernel was reached: channels opened or a command sent. *)
Definition contacted_kernel (tr : list action) : bool :=
  existsb (λ a, match a with
                | StartChannels _ | Execute _ => true
                | _ => false
                end) tr.

Definition received (tr : list action) : list json :=
  omap (λ a, match a with Print (RecvIopub m) => Some m | _ => None end) tr.

Definition finished (tr : list action) : list (json * N) :=
  omap (λ a, match a with
             | Print (ExecuteFinished reply elapsed) => Some (reply, elapsed)
             | _ => None
             end) tr.

(** [asyncio.run(c)]: when [c] is over, with a value or an exception, the
    tasks still on the loop are cancelled. *)
Definition asyncio_run {A} (c : M A) : M A := λ w,
  match c w with
  | (Blocked, w') => (Blocked, w')
  | (o, w') => (o, cancel w')
  end.

(** What the control API answers to a request: the parsed body and the
    HTTP status. *)
Record response : Type := Response {
  resp_json : json;
  resp_status : Z
}.

(** Everything the script meets in one run. *)
Record surroundings : Type := Surroundings {
  status_answers : list probe;
  session_answer : response;
  the_kernel : kernel
}.

Section Host.

(** The home directory, [os.path.expanduser("~")]. *)
Variable SESSION_PATH : string.
(** [str(session_info)], as the f-string renders the parsed body. *)
Variable py_str : json → string.
(** [json.dumps(session_info)]. *)
Variable json_dumps : json → string.
(** Whether the host lets [open(path, "w")] succeed. *)
Variable writable : string → bool.
(** What [glob] finds for a directory part that holds metacharacters: the
    directories of the host that match it, each with the names it holds. *)
Variable glob_dirs : string → list (string * list string).
(** The time [client.execute] and the creation of the task take, between
    [start_time] and the start of the wait for the reply. *)
Variable submit_took : N.
(** How late the timeout of the wait is noticed. *)
Variable overshoot : N.

(** *** Session creation *)

Definition payload : json :=
  JObj [ ("path", JStr SESSION_PATH);
         ("kernel", JObj [ ("name", JStr SESSION_KERNEL_NAME) ]);
         ("type", JStr "notebook");
         ("name", JStr "default") ].

Definition kernel_id_path : string :=
  path_join (path_join SESSION_PATH ".jupyter") "kernel_id".

Definition session_info_path : string :=
  path_join (path_join SESSION_PATH ".jupyter") ".session_info".

Definition error_message (session_info : json) (status_code : Z) : string :=
  "error creating kernel: " +:+ py_str session_info +:+ " " +:+ pretty status_code.

(** The failure the specification calls a protocol violation: the exception
    of line 58, whose message shows the body and the status. *)
Definition protocol_violation {A} (o : outcome A) (resp : response) : Prop :=
  ∃ msg, o = Raise (Exception msg)
         ∧ contains (py_str (resp_json resp)) msg
         ∧ contains (pretty (resp_status resp)) msg.

(** [create_session], given the answer [resp] of the sessions endpoint. *)
Definition create_session (resp : response) : M json :=
  emit (HttpPost (BASE_URL +:+ "/api/sessions") payload);;
  let session_info := resp_json resp in
  let status_code := resp_status resp in
  kernel_id ← lift (getitem2 session_info "kernel" "id");
  exec_state ← lift (getitem2 session_info "kernel" "execution_state");
  if ne_str exec_state "starting"
  then raise (Exception (error_message session_info status_code))
  else
    open_w writable kernel_id_path;;
    write kernel_id_path kernel_id;;
    open_w writable session_info_path;;
    write session_info_path (JStr (json_dumps session_info));;
    mret session_info.

(** *** Connection discovery and the pre-warm execution *)

Definition runtime_dir : string :=
  path_join
    (path_join (path_join (path_join SESSION_PATH ".local") "share") "jupyter")
    "runtime".

(** [glob.glob(os.path.join(runtime_dir, "kernel-*.json"))]. [listing] is
    what the directory [runtime_dir] holds (nothing when it does not exist).
    When the directory part holds no metacharacter, glob looks into that
    directory; when it holds one, glob expands it first and looks into every
    directory it matches, and [runtime_dir] itself is not looked into unless
    it is one of them. Each name found is joined to the directory it was
    found in. *)
Definition glob_connection_files (listing : list string) : list string :=
  if has_magic runtime_dir then
    flat_map
      (λ d : string * list string,
         path_join d.1 <$> List.filter (fnmatch_star "kernel-" ".json") d.2)
      (glob_dirs runtime_dir)
  else
    path_join runtime_dir
      <$> List.filter (fnmatch_star "kernel-" ".json") listing.

(** Lines 67 to 71: the glob, the assertion and [connection_files[0]]. *)
Definition locate_connection_file (listing : list string) : M string :=
  let connection_files := glob_connection_files listing in
  if (length connection_files =? 1)%nat then
    match connection_files with
    | c :: _ => mret c
    | [] => raise IndexError
    end
  else raise AssertionError.

Definition execute_cmd_in_jupyter (session_info : json) (cmd : string)
    (k : kernel) : M unit :=
  connection_file ← locate_connection_file (runtime_listing k);
  emit (StartChannels connection_file);;
  start_time ← time;
  emit (Execute cmd);;
  set_drain (Some TaskWaiting);;
  advance submit_took;;
  reply ← recv_reply overshoot (msg_id k) 60000 (arrivals k);
  end_time ← time;
  print (ExecuteFinished reply (end_time - start_time));;
  cancel_drain.

(** *** Orchestration *)

Definition main (env : surroundings) : M unit :=
  wait_for_server (status_answers env);;
  session_info ← create_session (session_answer env);
  execute_cmd_in_jupyter session_info JUPYTER_CMD (the_kernel env);;
  sleep 100000.

(** The [__main__] block. *)
Definition script (env : surroundings) : M unit :=
  emit (Spawn ["jupyter"; "server"; "--IdentityProvider.token="]);;
  asyncio_run (main env);;
  emit WaitChild.

End Host.

End StartUp.

(** ** The metrics logger [monitor.py] *)

Module Monitor.

Definition MAX_MB : N := 200.

(** The script only configures a [RotatingFileHandler] of Python's
    [logging.handlers]; [emit], [shouldRollover] and [doRollover] below
    follow that class. Its two settings: *)
Record handler : Type := Handler {
  maxBytes : N;
  backupCount : nat
}.

Definition log_handler : handler := Handler (MAX_MB * 1024 * 1024) 2.

(** The log files by rotation index: 0 is [/root/metrics_log.json], [i] is
    [/root/metrics_log.json.i]. A file is the list of its lines. [rollovers]
    counts the calls of [doRollover]; it says nothing of what a call did to
    the files. *)
Record log_state : Type := LogState {
  store : gmap nat (list string);
  rollovers : nat
}.

Fixpoint bytes (lines : list string) : N :=
  match lines with
  | [] => 0
  | l :: rest => N.of_nat (String.length l) + 1 + bytes rest
  end.

Definition base (m : gmap nat (list string)) : list string :=
  default [] (m !! 0%nat).

(** [os.rename(src, dst)] when [src] exists. *)
Definition rename (src dst : nat) (m : gmap nat (list string))
  : gmap nat (list string) :=
  match m !! src with
  | Some c => <[dst := c]> (delete src m)
  | None => m
  end.

(** [for i in range(n, 0, -1)]: backup [i] becomes backup [i + 1]. *)
Fixpoint shift_backups (n : nat) (m : gmap nat (list string))
  : gmap nat (list string) :=
  match n with
  | O => m
  | S j =>
      shift_backups j
        (match m !! S j with
         | Some _ => rename (S j) (S (S j)) (delete (S (S j)) m)
         | None => m
         end)
  end.

(** Opening the base file in append mode creates it when it is absent. *)
Definition open_base (m : gmap nat (list string)) : gmap nat (list string) :=
  match m !! 0%nat with
  | Some _ => m
  | None => <[0%nat := []]> m
  end.

Definition doRollover (h : handler) (m : gmap nat (list string))
  : gmap nat (list string) :=
  open_base
    (if (0 <? backupCount h)%nat
     then rename 0 1 (delete 1%nat (shift_backups (backupCount h - 1) m))
     else m).

Section Runtime.

(** Which Python runs the script: since the change gh-116263 of CPython a
    handler never rolls over an empty file ([if not pos: return False]);
    before, it did. *)
Variable never_roll_empty : bool.

(** The file is rolled over when the line and its terminator would reach
    [maxBytes], unless the file is empty and the runtime never rolls over an
    empty file. *)
Definition shouldRollover (h : handler) (m : gmap nat (list string))
    (line : string) : bool :=
  if (0 <? maxBytes h)%N then
    let pos := bytes (base m) in
    if never_roll_empty && (pos =? 0)%N then false
    else (maxBytes h <=? pos + (N.of_nat (String.length line) + 1))%N
  else false.

(** The stream of the handler is open when a record is emitted, so the live
    file exists; the record is written after the rollover, if there is
    one. *)
Definition emit (h : handler) (st : log_state) (line : string) : log_state :=
  let m := open_base (store st) in
  let st' :=
    if shouldRollover h m line
    then LogState (doRollover h m) (S (rollovers st))
    else LogState m (rollovers st) in
  LogState (<[0%nat := base (store st') ++ [line]]> (store st'))
    (rollovers st').

(** The handler is created with the files a former run left behind. *)
Definition start (m : gmap nat (list string)) : log_state :=
  LogState (open_base m) 0.

(** Logging a sequence of lines through a handler. *)
Definition run (h : handler) (samples : list string) (st : log_state)
  : log_state :=
  foldl (emit h) st samples.

(** [main]: every sample, already serialised by [json.dumps], is logged
    through [log_handler]. *)
Definition main (samples : list string) (st : log_state) : log_state :=
  run log_handler samples st.

End Runtime.


(** A line that fits under the cap together with its terminator. *)
Definition short (h : handler) (line : string) : Prop :=
  (N.of_nat (String.length line) + 1 < maxBytes h)%N.

(** The lines on disk with two backups, oldest first. *)
Definition on_disk (m : gmap nat (list string)) : list string :=
  default [] (m !! 2%nat) ++ default [] (m !! 1%nat) ++ base m.

(** What a rotation with two backups does to the files when [line] is the
    record that triggers it: the live file becomes backup 1, the former
    backup 1, if there was one, becomes backup 2, and the new live file holds
    the record alone. *)
Definition rotated_at (before after : gmap nat (list string)) (line : string)
  : Prop :=
  base after = [line]
  ∧ after !! 1%nat = Some (base before)
  ∧ after !! 2%nat
    = match before !! 1%nat with
      | Some c => Some c
      | None => before !! 2%nat
      end.


Definition total (samples : list string) : N := bytes samples.

End Monitor.

(** ** Sample surroundings, for the worked examples *)

Module Sample.

Import StartUp.

(** A plain rendering of a JSON value. The theorems hold for whatever
    [str] and [json.dumps] produce; the examples need one rendering to
    compute with. *)
Fixpoint render (v : json) : string :=
  match v with
  | JNull => "null"
  | JBool b => if b then "true" else "false"
  | JNum z => pretty z
  | JStr s => s
  | JArr items =>
      "[" +:+ (fix go (l : list json) : string :=
                 match l with
                 | [] => ""
                 | x :: l' => render x +:+ "," +:+ go l'
                 end) items +:+ "]"
  | JObj fields =>
      "{" +:+ (fix go (l : list (string * json)) : string :=
                 match l with
                 | [] => ""
                 | (k, x) :: l' => k +:+ ":" +:+ render x +:+ "," +:+ go l'
                 end) fields +:+ "}"
  end.

Definition home : string := "/root".

(** The answer of the end-to-end scenario of the specification. *)
Definition created : response :=
  Response
    (JObj [ ("id", JStr "s1");
            ("kernel",
             JObj [ ("id", JStr "abc123");
                    ("execution_state", JStr "starting") ]) ])
    201.

(** A kernel that is already idle. *)
Definition idle : response :=
  Response
    (JObj [ ("kernel",
             JObj [ ("id", JStr "abc123"); ("execution_state", JStr "idle") ]) ])
    201.

(** An idle kernel whose id is missing from the body. *)
Definition idle_without_id : response :=
  Response (JObj [ ("kernel", JObj [ ("execution_state", JStr "idle") ]) ]) 201.

(** 503 twice, then 200. *)
Definition three_probes : list probe :=
  [ Probe (Responded 503) 5; Probe (Responded 503) 5; Probe (Responded 200) 5 ].

Definition reply : json := JObj [ ("status", JStr "ok") ].

(** One connection file; two side-channel messages, the reply of another
    request, then the reply, 50 ms after the request. *)
Definition busy_kernel : kernel :=
  Kernel [ "kernel-7f3a.json"; "jpserver-214.json" ] "m1"
    [ Arrival 10 (Iopub (JStr "busy"));
      Arrival 10 (Iopub (JStr "stream"));
      Arrival 10 (Shell "m0" JNull);
      Arrival 20 (Shell "m1" reply) ].

(** One connection file, and a kernel that never answers. *)
Definition silent_kernel : kernel :=
  Kernel [ "kernel-7f3a.json" ] "m1" [].

Definition silent_run : surroundings :=
  Surroundings three_probes created silent_kernel.

(** Runtime directories with 0, 1, 2 and 5 connection files. *)
Definition listing (n : nat) : list string :=
  "jpserver-214.json"
  :: take n [ "kernel-a.json"; "kernel-b.json"; "kernel-c.json";
              "kernel-d.json"; "kernel-e.json" ].

Definition kernel_with (n : nat) : kernel := Kernel (listing n) "m1" [].

(** A line of the metrics log. *)
Definition sample_line : string :=
  "timestamp: 1730000000.0, cpu: [12.5, 3.1], memory: 41.7, network: {}".

(** A home without metacharacters needs no expansion, and a host where
    every file can be opened. *)
Definition no_dirs : string → list (string * list string) := λ _, [].

Definition all_writable : string → bool := λ _, true.

(** A host without the [.jupyter] directory. *)
Definition none_writable : string → bool := λ _, false.

(** A home whose name holds a metacharacter; glob, expanding it, finds no
    directory. *)
Definition magic_home : string := "/home/d_meta[1]".



(** A kernel in state "starting" whose id is a number. *)
Definition numeric_id : response :=
  Response
    (JObj [ ("kernel",
             JObj [ ("id", JNum 7); ("execution_state", JStr "starting") ]) ])
    201.

(** Twenty probes answered 503, then a 200. *)
Definition twenty_failures : list probe :=
  replicate 20 (Probe (Responded 503) 5).

Definition spawned : world :=
  World 0 [Spawn ["jupyter"; "server"; "--IdentityProvider.token="]] ∅ None.

(** A server that is not ready within the answers given. *)
Definition unready_run : surroundings :=
  Surroundings [Probe Unreachable 5; Probe (Responded 503) 5] created
    silent_kernel.

(** A run in which everything succeeds. *)
Definition good_run : surroundings :=
  Surroundings three_probes created busy_kernel.

(** A run whose session is refused. *)
Definition refused_run : surroundings :=
  Surroundings three_probes idle busy_kernel.

(** A handler with a cap of 64 bytes and two backups, and a log whose live
    file holds one line and whose first backup holds another. *)
Definition small_handler : Monitor.handler := Monitor.Handler 64 2.

Definition small_log : Monitor.log_state :=
  Monitor.LogState {[ 0 := [sample_line]; 1 := ["an older line"] ]} 0.

End Sample.

(** * Properties *)

Import StartUp.

(** ** Strings and paths *)

Lemma append_cons (c : ascii) (a b : string) :
  String c a +:+ b = String c (a +:+ b).
Proof. reflexivity. Qed.

Lemma append_assoc (a b c : string) : (a +:+ b) +:+ c = a +:+ (b +:+ c).
Proof.
  induction a as [|x a IH]; [done|].
  by rewrite !append_cons, IH.
Qed.

Lemma append_empty_r (a : string) : a +:+ "" = a.
Proof.
  induction a as [|x a IH]; [done|].
  by rewrite append_cons, IH.
Qed.

Lemma path_join_relative_inj (dir a b : string) :
  starts_with_sep a = false → starts_with_sep b = false →
  path_join dir a = path_join dir b → a = b.
Proof.
  unfold path_join. intros -> ->.
  destruct (String.eqb dir "" || ends_with_sep dir)%bool; intros H.
  - by apply (inj (String.append dir)) in H.
  - apply (inj (String.append dir)) in H.
    by apply (inj (String.append "/")) in H.
Qed.

Lemma ne_str_true (v : json) (s : string) : ne_str v s = true ↔ v ≠ JStr s.
Proof.
  destruct v; simpl; try (split; [intros _; discriminate | done]).
  destruct (String.eqb_spec s0 s) as [->|Hne]; simpl.
  - split; [discriminate | intros H; by destruct H].
  - split; [intros _ H; apply Hne; by injection H | done].
Qed.

Lemma contains_middle (a b c : string) : contains b (a +:+ b +:+ c).
Proof. by exists a, c. Qed.

(** Unfolding one step of the monad. *)
Ltac run :=
  repeat (unfold mbind, mret, M_bind, M_ret, lift, raise, blocked, print,
            sleep, emit, advance, time, open_w, write, set_drain, wait_until,
            cancel_drain;
          simpl).

(** ** Session creation *)

Section SessionFacts.

Variable SESSION_PATH : string.
Variable py_str : json → string.
Variable json_dumps : json → string.
Variable writable : string → bool.

Local Abbreviation create_session :=
  (StartUp.create_session SESSION_PATH py_str json_dumps writable).
Local Abbreviation kernel_id_path := (StartUp.kernel_id_path SESSION_PATH).
Local Abbreviation session_info_path := (StartUp.session_info_path SESSION_PATH).

Lemma kernel_id_path_ne_session_info_path :
  kernel_id_path ≠ session_info_path.
Proof.
  intros H. apply path_join_relative_inj in H; done.
Qed.

Lemma error_message_shows_body_and_status (resp : response) :
  protocol_violation py_str
    (Raise (A := json)
       (Exception (error_message py_str (resp_json resp) (resp_status resp))))
    resp.
Proof.
  eexists. split; [done|]. unfold error_message. split.
  - apply contains_middle.
  - exists ("error creating kernel: " +:+ py_str (resp_json resp) +:+ " "), "".
    by rewrite append_empty_r, !append_assoc.
Qed.

(** The validation of lines 55 to 58, on its own. *)
Lemma create_session_validation (resp : response) (w : world) :
  let posted :=
    World (now w)
      (trace w ++ [HttpPost (BASE_URL +:+ "/api/sessions")
                     (payload SESSION_PATH)])
      (files w) (drain w) in
  match getitem2 (resp_json resp) "kernel" "id",
        getitem2 (resp_json resp) "kernel" "execution_state" with
  | Raise e, _ => create_session resp w = (Raise e, posted)
  | Ok _, Raise e => create_session resp w = (Raise e, posted)
  | Ok _, Ok st =>
      ne_str st "starting" = true →
      create_session resp w =
        (Raise (Exception
                  (error_message py_str (resp_json resp) (resp_status resp))),
         posted)
  | _, _ => True
  end.
Proof.
  unfold StartUp.create_session. run.
  destruct (getitem2 _ "kernel" "id") as [kid|e|]; [|done..].
  destruct (getitem2 _ "kernel" "execution_state") as [st|e|]; [|done..].
  by intros ->.
Qed.

Lemma open_w_writable (path : string) (w : world) :
  writable path = true →
  open_w writable path w
  = (Ok tt, World (now w) (trace w) (<[path := ""]> (files w)) (drain w)).
Proof. unfold open_w. by intros ->. Qed.

Lemma open_w_refused (path : string) (w : world) :
  writable path = false → open_w writable path w = (Raise OSError, w).
Proof. unfold open_w. by intros ->. Qed.

Lemma getitem_not_blocked (v : json) (k : string) : getitem v k ≠ Blocked.
Proof. destruct v; simpl; try done. by destruct (assoc k fields). Qed.

Lemma getitem2_not_blocked (v : json) (k1 k2 : string) :
  getitem2 v k1 k2 ≠ Blocked.
Proof.
  unfold getitem2. pose proof (getitem_not_blocked v k1).
  destruct (getitem v k1); [apply getitem_not_blocked|done..].
Qed.

(** C4, as amended. A response whose kernel execution_state is present and
    is not the string "starting" always makes [create_session] fail; when the
    kernel object also holds an id, the failure is the exception of line 58,
    whose message shows the rendered response body and the HTTP status code,
    whatever else the response holds. *)
Theorem create_session_rejects_unexpected_state
    (resp : response) (w : world) (st : json) :
  getitem2 (resp_json resp) "kernel" "execution_state" = Ok st →
  st ≠ JStr "starting" →
  is_raise (create_session resp w).1 = true
  ∧ (∀ kid, getitem2 (resp_json resp) "kernel" "id" = Ok kid →
            protocol_violation py_str (create_session resp w).1 resp).
Proof.
  intros Hst Hne%ne_str_true.
  pose proof (create_session_validation resp w) as H. simpl in H.
  rewrite Hst in H.
  pose proof (getitem2_not_blocked (resp_json resp) "kernel" "id") as Hnb.
  destruct (getitem2 _ "kernel" "id") as [kid|e|]; [| |done].
  - rewrite (H Hne). split; [done|].
    intros _ _. apply error_message_shows_body_and_status.
  - rewrite H. split; [done|]. intros ? [=].
Qed.

(** C8, as amended. On a host that lets the kernel-id file and the
    session-info file be opened for writing, a well-formed response whose
    kernel execution_state is "starting" has its kernel id written to the
    kernel-id file and its whole body written to the session-info file, no
    other file is touched, and the parsed body is returned. *)
Theorem create_session_persists_descriptor
    (resp : response) (w : world) (kid : string) :
  writable kernel_id_path = true →
  writable session_info_path = true →
  getitem2 (resp_json resp) "kernel" "id" = Ok (JStr kid) →
  getitem2 (resp_json resp) "kernel" "execution_state" = Ok (JStr "starting") →
  (create_session resp w).1 = Ok (resp_json resp)
  ∧ files (create_session resp w).2 !! kernel_id_path = Some kid
  ∧ files (create_session resp w).2 !! session_info_path
    = Some (json_dumps (resp_json resp))
  ∧ (∀ p, p ≠ kernel_id_path → p ≠ session_info_path →
          files (create_session resp w).2 !! p = files w !! p).
Proof.
  intros Hk Hs Hid Hst. unfold StartUp.create_session. run.
  rewrite Hid, Hst. simpl. unfold open_w. rewrite Hk. simpl. rewrite Hs. simpl.
  pose proof kernel_id_path_ne_session_info_path as Hne.
  repeat split.
  - rewrite insert_insert_eq, lookup_insert_ne by done.
    by rewrite insert_insert_eq, lookup_insert_eq.
  - by rewrite insert_insert_eq, lookup_insert_eq.
  - intros p H1 H2. by rewrite !lookup_insert_ne.
Qed.

(** C10. When the response misses a kernel field, or its kernel
    execution_state is not "starting", [create_session] fails and the files
    are exactly what they were: nothing is written before the validation. *)
Theorem create_session_failure_writes_nothing (resp : response) (w : world) :
  is_raise (getitem2 (resp_json resp) "kernel" "id") = true
  ∨ is_raise (getitem2 (resp_json resp) "kernel" "execution_state") = true
  ∨ (∃ st, getitem2 (resp_json resp) "kernel" "execution_state" = Ok st
           ∧ st ≠ JStr "starting") →
  is_raise (create_session resp w).1 = true
  ∧ files (create_session resp w).2 = files w.
Proof.
  intros H.
  pose proof (create_session_validation resp w) as V. simpl in V.
  pose proof (getitem2_not_blocked (resp_json resp) "kernel" "id") as Hnb.
  destruct (getitem2 _ "kernel" "id") as [kid|e|]; [| |done].
  - destruct H as [H|[H|(st & Hst & Hne%ne_str_true)]]; [done| |].
    + destruct (getitem2 _ "kernel" "execution_state"); try done.
      by rewrite V.
    + rewrite Hst in V. by rewrite (V Hne).
  - by rewrite V.
Qed.

End SessionFacts.

(** ** Readiness polling *)

Section PollingFacts.

#[local] Arguments Nat.modulo : simpl never.
#[local] Arguments failed_turn : simpl never.

Lemma count_gets_app (a b : list action) :
  count_gets (a ++ b) = count_gets a + count_gets b.
Proof. unfold count_gets. by rewrite List.filter_app, length_app. Qed.

Lemma count_sleeps_app (a b : list action) :
  count_sleeps (a ++ b) = count_sleeps a + count_sleeps b.
Proof. unfold count_sleeps. by rewrite List.filter_app, length_app. Qed.

Lemma count_gets_print (o : output) : count_gets [Print o] = 0.
Proof. reflexivity. Qed.

Lemma count_sleeps_print (o : output) : count_sleeps [Print o] = 0.
Proof. reflexivity. Qed.

Lemma poll_cons (p : probe) (rest : list probe) (counter : nat) (w : world) :
  poll (p :: rest) counter w =
    if ready (answer p)
    then (Ok tt,
          World (now w + took p)
            (trace w ++ [HttpGet (BASE_URL +:+ "/api/status")])
            (files w) (drain w))
    else poll rest (S counter)
           (World (now w + took p + 100) (trace w ++ failed_turn counter)
              (files w) (drain w)).
Proof.
  unfold failed_turn. simpl. run.
  destruct (ready (answer p)); [done|].
  destruct (S counter mod 20 =? 0)%nat; run; by rewrite <- !app_assoc.
Qed.

Lemma failed_turn_counts (counter : nat) :
  count_gets (failed_turn counter) = 1
  ∧ count_sleeps (failed_turn counter) = 1.
Proof. unfold failed_turn. by destruct (S counter mod 20 =? 0)%nat. Qed.

Lemma poll_all_failed (probes : list probe) (counter : nat) (w : world) :
  Forall (λ q, ready (answer q) = false) probes →
  (poll probes counter w).1 = Blocked.
Proof.
  intros H. revert counter w.
  induction H as [|q probes Hq _ IH]; intros counter w; [done|].
  rewrite poll_cons, Hq. apply IH.
Qed.

Lemma poll_first_ready
    (failed : list probe) (p : probe) (rest : list probe) (counter : nat)
    (w : world) :
  Forall (λ q, ready (answer q) = false) failed →
  ready (answer p) = true →
  ∃ tr,
    poll (failed ++ p :: rest) counter w =
      (Ok tt,
       World (now w + (total_took (failed ++ [p])
                       + 100 * N.of_nat (length failed)))
         (trace w ++ tr) (files w) (drain w))
    ∧ count_gets tr = S (length failed)
    ∧ count_sleeps tr = length failed.
Proof.
  intros H Hp. revert counter w.
  induction H as [|q failed Hq _ IH]; intros counter w.
  - exists [HttpGet (BASE_URL +:+ "/api/status")].
    simpl app. rewrite poll_cons, Hp. repeat split.
    by replace (now w + (total_took [p] + 100 * N.of_nat (length [])))%N
      with (now w + took p)%N by (simpl; lia).
  - simpl app. rewrite poll_cons, Hq.
    destruct (IH (S counter)
                (World (now w + took q + 100) (trace w ++ failed_turn counter)
                   (files w) (drain w))) as (tr & -> & Hg & Hs).
    destruct (failed_turn_counts counter) as [Hg1 Hs1].
    exists (failed_turn counter ++ tr). cbn [now trace files drain].
    change (total_took ((q :: failed) ++ [p]))
      with (took q + total_took (failed ++ [p]))%N.
    rewrite length_cons, Nat2N.inj_succ. repeat split.
    + rewrite app_assoc.
      by replace (now w + took q + 100
                  + (total_took (failed ++ [p]) + 100 * N.of_nat (length failed)))%N
        with (now w + (took q + total_took (failed ++ [p])
                       + 100 * N.succ (N.of_nat (length failed))))%N by lia.
    + rewrite count_gets_app. lia.
    + rewrite count_sleeps_app. lia.
Qed.

Lemma ready_true (a : probe_answer) : ready a = true ↔ a = Responded 200.
Proof.
  destruct a as [status|]; simpl; [|done].
  rewrite Z.eqb_eq. split; [by intros -> | by intros [=]].
Qed.

Lemma probes_split (probes : list probe) :
  Forall (λ q, ready (answer q) = false) probes
  ∨ ∃ failed p rest,
      probes = failed ++ p :: rest
      ∧ Forall (λ q, ready (answer q) = false) failed
      ∧ ready (answer p) = true.
Proof.
  induction probes as [|q probes IH]; [by left|].
  destruct (ready (answer q)) eqn:Hq.
  - right. by exists [], q, probes.
  - destruct IH as [IH|(failed & p & rest & -> & Hf & Hp)].
    + left. by constructor.
    + right. exists (q :: failed), p, rest. repeat split; [|done].
      by constructor.
Qed.

Lemma wait_for_server_unfold (probes : list probe) (w : world) :
  wait_for_server probes w =
    match poll probes 0 w with
    | (Ok _, w') =>
        (Ok tt,
         World (now w')
           (trace w' ++ [Print (ServerStartTook (now w' - now w))])
           (files w') (drain w'))
    | (Raise e, w') => (Raise e, w')
    | (Blocked, w') => (Blocked, w')
    end.
Proof.
  unfold wait_for_server. run.
  by destruct (poll probes 0 w) as [[[]|e|] w'].
Qed.

Lemma wait_for_server_all_failed (probes : list probe) (w : world) :
  Forall (λ q, ready (answer q) = false) probes →
  (wait_for_server probes w).1 = Blocked.
Proof.
  intros H%(poll_all_failed _ 0 w). rewrite wait_for_server_unfold.
  destruct (poll probes 0 w) as [o w']. simpl in H. by subst o.
Qed.

Lemma wait_for_server_returns_at_first_success_aux
    (failed : list probe) (p : probe) (rest : list probe) (w : world) :
  Forall (λ q, ready (answer q) = false) failed →
  ready (answer p) = true →
  count_gets (trace (wait_for_server (failed ++ p :: rest) w).2)
  = count_gets (trace w) + S (length failed).
Proof.
  intros Hf Hp.
  destruct (poll_first_ready failed p rest 0 w Hf Hp) as (tr & Hpoll & Hg & _).
  rewrite wait_for_server_unfold, Hpoll. cbn [fst snd now trace].
  rewrite !count_gets_app, Hg, count_gets_print. lia.
Qed.

(** C7. When the N-th probe is the first one answered with 200,
    [wait_for_server] returns after exactly N requests (with fewer answers
    it is still polling), it has slept N-1 times, and the duration it prints
    is at least (N-1) times the 100 ms poll interval. *)
Theorem wait_for_server_returns_at_first_success
    (failed : list probe) (p : probe) (rest : list probe) (w : world) :
  Forall (λ q, ready (answer q) = false) failed →
  ready (answer p) = true →
  let n := S (length failed) in
  let r := wait_for_server (failed ++ p :: rest) w in
  r.1 = Ok tt
  ∧ count_gets (trace r.2) = count_gets (trace w) + n
  ∧ count_sleeps (trace r.2) = count_sleeps (trace w) + (n - 1)
  ∧ (∃ elapsed,
        last (trace r.2) = Some (Print (ServerStartTook elapsed))
        ∧ (100 * N.of_nat (n - 1) ≤ elapsed)%N)
  ∧ (∀ k, k < n →
          (wait_for_server (take k (failed ++ p :: rest)) w).1 = Blocked).
Proof.
  intros Hf Hp n r. subst n r.
  destruct (poll_first_ready failed p rest 0 w Hf Hp) as (tr & Hpoll & Hg & Hs).
  rewrite wait_for_server_unfold, Hpoll. cbn [fst snd now trace].
  repeat split.
  - rewrite !count_gets_app, Hg, count_gets_print. lia.
  - rewrite !count_sleeps_app, Hs, count_sleeps_print. lia.
  - eexists. split; [apply last_snoc|]. simpl. lia.
  - intros k Hk. apply wait_for_server_all_failed.
    rewrite take_app_le by lia. by apply Forall_take.
Qed.

(** C5, as amended. A probe ends the polling loop exactly when it is
    answered with status 200; any other status, like a request that fails,
    leaves the loop polling. *)
Theorem wait_for_server_stops_on_200_only
    (p : probe) (rest : list probe) (w : world) :
  let r := wait_for_server (p :: rest) w in
  (r.1 = Ok tt ∧ count_gets (trace r.2) = S (count_gets (trace w)))
  ↔ answer p = Responded 200.
Proof.
  intros r. subst r. rewrite <- ready_true. split.
  - intros [Hok Hn]. destruct (ready (answer p)) eqn:Hp; [done|]. exfalso.
    destruct (probes_split rest) as [Hall|(failed & q & rest' & -> & Hf & Hq)].
    + rewrite wait_for_server_all_failed in Hok; [done|].
      constructor; [done|]. apply Hall.
    + assert (Hf' : Forall (λ q, ready (answer q) = false) (p :: failed))
        by by constructor.
      pose proof (wait_for_server_returns_at_first_success_aux
                    (p :: failed) q rest' w Hf' Hq) as Hc.
      simpl in Hc. rewrite Hc in Hn. lia.
  - intros Hp.
    destruct (poll_first_ready [] p rest 0 w (Forall_nil_2 _) Hp)
      as (tr & Hpoll & Hg & _).
    change ([] ++ p :: rest) with (p :: rest) in Hpoll.
    rewrite wait_for_server_unfold, Hpoll. cbn [fst snd trace].
    split; [done|].
    rewrite !count_gets_app, Hg, count_gets_print. simpl. lia.
Qed.

End PollingFacts.

(** ** Waiting for the reply, with the drain task alongside *)

Section ReplyFacts.

Lemma await_reply_cons
    (late : N) (msg_id : string) (deadline : N) (a : arrival)
    (rest : list arrival) (w : world) :
  await_reply late msg_id deadline (a :: rest) w =
    if (deadline <? now w + gap a)%N
    then (Raise TimeoutError,
          World (N.max (now w) (deadline + late)) (trace w) (files w)
            (drain w))
    else
      let w1 := World (now w + gap a) (trace w) (files w) (drain w) in
      match event a with
      | Iopub m =>
          match drain w with
          | Some TaskWaiting =>
              await_reply late msg_id deadline rest
                (World (now w + gap a) (trace w ++ [Print (RecvIopub m)])
                   (files w) (Some TaskFinished))
          | _ => await_reply late msg_id deadline rest w1
          end
      | Shell parent m =>
          if String.eqb parent msg_id then (Ok m, w1)
          else await_reply late msg_id deadline rest w1
      end.
Proof.
  simpl. run. destruct (deadline <? now w + gap a)%N; [done|].
  destruct (event a) as [m|parent m]; run.
  - unfold handle_iopub_msg. simpl.
    by destruct (drain w) as [[]|].
  - by destruct (String.eqb parent msg_id).
Qed.

(** What the drain task has taken when the wait is over. *)
Lemma await_reply_spec
    (late : N) (msg_id : string) (deadline : N) (arrivals : list arrival)
    (w : world) :
  (now w ≤ deadline)%N →
  let budget := (deadline - now w)%N in
  let seen :=
    match drain w with
    | Some TaskWaiting => first_iopub msg_id budget arrivals
    | _ => None
    end in
  let tr := match seen with Some m => [Print (RecvIopub m)] | None => [] end in
  let t := match seen with Some _ => Some TaskFinished | None => drain w end in
  await_reply late msg_id deadline arrivals w =
    match correlated_reply msg_id budget arrivals with
    | Some (m, d) => (Ok m, World (now w + d) (trace w ++ tr) (files w) t)
    | None =>
        (Raise TimeoutError,
         World (deadline + late) (trace w ++ tr) (files w) t)
    end.
Proof.
  revert w. induction arrivals as [|a rest IH]; intros w Hle; cbn zeta.
  - simpl. run. rewrite N.max_r by lia.
    destruct (drain w) as [[]|]; by rewrite app_nil_r.
  - rewrite await_reply_cons. cbn [correlated_reply first_iopub].
    destruct (N.ltb_spec deadline (now w + gap a)) as [Hlate|Hin].
    + assert ((deadline - now w <? gap a)%N = true) as ->
        by (apply N.ltb_lt; lia).
      rewrite N.max_r by lia.
      destruct (drain w) as [[]|]; by rewrite app_nil_r.
    + assert ((deadline - now w <? gap a)%N = false) as ->
        by (apply N.ltb_ge; lia).
      cbn zeta.
      replace (deadline - now w - gap a)%N
        with (deadline - (now w + gap a))%N by lia.
      destruct (event a) as [m|parent m].
      * destruct (drain w) as [[]|];
          (rewrite IH by (simpl; lia)); cbn [now trace files drain];
          (destruct (correlated_reply _ _ rest) as [[m' d']|]); simpl;
          rewrite ?app_nil_r, ?N.add_assoc; done.
      * destruct (String.eqb parent msg_id).
        -- destruct (drain w) as [[]|]; by rewrite app_nil_r.
        -- rewrite IH by (simpl; lia). cbn [now trace files drain].
           destruct (correlated_reply _ _ rest) as [[m' d']|]; simpl; [|done].
           by rewrite N.add_assoc.
Qed.

Lemma correlated_reply_late_carry
    (msg_id : string) (budget carry : N) (arrivals : list arrival) :
  (budget < carry)%N →
  correlated_reply msg_id budget (without_iopub carry arrivals) = None.
Proof.
  revert carry. induction arrivals as [|a rest IH]; intros carry Hlt; [done|].
  simpl. destruct (event a) as [m|parent m].
  - apply IH. lia.
  - simpl. by assert ((budget <? carry + gap a)%N = true) as ->
      by (apply N.ltb_lt; lia).
Qed.

Lemma correlated_reply_without_iopub
    (msg_id : string) (budget carry : N) (arrivals : list arrival) :
  (carry ≤ budget)%N →
  correlated_reply msg_id budget (without_iopub carry arrivals)
  = (λ r : json * N, (r.1, carry + r.2)%N)
      <$> correlated_reply msg_id (budget - carry) arrivals.
Proof.
  revert carry budget.
  induction arrivals as [|a rest IH]; intros carry budget Hle; [done|].
  cbn [without_iopub correlated_reply].
  destruct (N.ltb_spec (budget - carry) (gap a)) as [Hlate|Hin].
  - destruct (event a) as [m|parent m].
    + apply correlated_reply_late_carry. lia.
    + cbn [correlated_reply gap].
      by assert ((budget <? carry + gap a)%N = true) as ->
        by (apply N.ltb_lt; lia).
  - cbn zeta. destruct (event a) as [m|parent m].
    + rewrite IH by lia.
      replace (budget - (carry + gap a))%N with (budget - carry - gap a)%N by lia.
      destruct (correlated_reply _ _ rest) as [[r d]|]; simpl; [|done].
      by rewrite N.add_assoc.
    + cbn [correlated_reply gap event].
      assert ((budget <? carry + gap a)%N = false) as ->
        by (apply N.ltb_ge; lia).
      cbn zeta. destruct (String.eqb parent msg_id); [done|].
      rewrite IH by lia. rewrite N.sub_0_r.
      replace (budget - (carry + gap a))%N with (budget - carry - gap a)%N by lia.
      destruct (correlated_reply _ _ rest) as [[r d]|]; simpl; [|done].
      by rewrite N.add_0_l, N.add_assoc.
Qed.

Lemma first_iopub_without_iopub
    (msg_id : string) (budget carry : N) (arrivals : list arrival) :
  first_iopub msg_id budget (without_iopub carry arrivals) = None.
Proof.
  revert carry budget.
  induction arrivals as [|a rest IH]; intros carry budget; [done|].
  simpl. destruct (event a) as [m|parent m]; [apply IH|].
  simpl. destruct (budget <? carry + gap a)%N; [done|].
  by destruct (String.eqb parent msg_id).
Qed.

Lemma first_iopub_head
    (msg_id : string) (budget : N) (arrivals : list arrival) :
  first_iopub msg_id budget arrivals
  = head (iopub_before_reply msg_id budget arrivals).
Proof.
  revert budget. induction arrivals as [|a rest IH]; intros budget; [done|].
  simpl. destruct (budget <? gap a)%N; [done|].
  destruct (event a) as [m|parent m]; [done|].
  by destruct (String.eqb parent msg_id).
Qed.

Lemma received_app (a b : list action) :
  received (a ++ b) = received a ++ received b.
Proof. apply omap_app. Qed.

Lemma finished_app (a b : list action) :
  finished (a ++ b) = finished a ++ finished b.
Proof. apply omap_app. Qed.

End ReplyFacts.

(** ** Connection discovery and the pre-warm execution *)

Section ExecutionFacts.

Variable SESSION_PATH : string.
Variable glob_dirs : string → list (string * list string).
Variable submit_took : N.
Variable overshoot : N.

Local Abbreviation runtime_dir := (StartUp.runtime_dir SESSION_PATH).
Local Abbreviation glob_connection_files :=
  (StartUp.glob_connection_files SESSION_PATH glob_dirs).
Local Abbreviation locate_connection_file :=
  (StartUp.locate_connection_file SESSION_PATH glob_dirs).
Local Abbreviation execute_cmd_in_jupyter :=
  (StartUp.execute_cmd_in_jupyter SESSION_PATH glob_dirs submit_took overshoot).

Lemma add_sub_cancel_l (n m : N) : (n + m - n = m)%N.
Proof. lia. Qed.

Lemma locate_connection_file_spec (listing : list string) (w : world) :
  locate_connection_file listing w =
    match glob_connection_files listing with
    | [path] => (Ok path, w)
    | _ => (Raise AssertionError, w)
    end.
Proof.
  unfold StartUp.locate_connection_file.
  by destruct (glob_connection_files listing) as [|path [|path' rest]].
Qed.

Lemma glob_connection_files_plain (listing : list string) :
  has_magic runtime_dir = false →
  glob_connection_files listing
  = path_join runtime_dir
      <$> List.filter (fnmatch_star "kernel-" ".json") listing.
Proof. unfold StartUp.glob_connection_files. by intros ->. Qed.

(** In a runtime directory whose path holds no metacharacter, the connection
    file is found when one entry of the directory has the name of one. *)
Lemma connection_file_found_plain (listing : list string) (name : string) :
  has_magic runtime_dir = false →
  List.filter (fnmatch_star "kernel-" ".json") listing = [name] →
  glob_connection_files listing = [path_join runtime_dir name].
Proof. intros Hplain Hone. by rewrite glob_connection_files_plain, Hone. Qed.

Lemma execute_cmd_in_jupyter_spec
    (session_info : json) (cmd : string) (k : kernel) (w : world)
    (connection_file : string) :
  glob_connection_files (runtime_listing k) = [connection_file] →
  let seen := first_iopub (msg_id k) 60000 (arrivals k) in
  let started :=
    trace w
    ++ [StartChannels connection_file; Execute cmd]
    ++ match seen with Some m => [Print (RecvIopub m)] | None => [] end in
  execute_cmd_in_jupyter session_info cmd k w =
    match correlated_reply (msg_id k) 60000 (arrivals k) with
    | Some (m, d) =>
        (Ok tt,
         World (now w + submit_took + d)
           (started ++ [Print (ExecuteFinished m (submit_took + d))]) (files w)
           (Some (if seen is Some _ then TaskFinished else TaskCancelled)))
    | None =>
        (Raise TimeoutError,
         World (now w + submit_took + 60000 + overshoot) started (files w)
           (Some (if seen is Some _ then TaskFinished else TaskWaiting)))
    end.
Proof.
  intros Hone. cbn zeta. unfold StartUp.execute_cmd_in_jupyter.
  unfold mbind at 1, M_bind at 1.
  rewrite locate_connection_file_spec, Hone.
  unfold recv_reply. run.
  rewrite await_reply_spec by (simpl; lia). cbn [now trace files drain].
  replace (now w + submit_took + 60000 - (now w + submit_took))%N
    with 60000%N by lia.
  destruct (correlated_reply _ _ _) as [[m d]|];
    destruct (first_iopub _ _ _) as [m'|]; simpl; unfold cancel; simpl;
    rewrite <- ?app_assoc; simpl;
    rewrite <- ?(N.add_assoc (now w)), ?add_sub_cancel_l; done.
Qed.

(** C6. Discovery fails when the glob finds no connection file, returns the
    path of the file when it finds exactly one, and fails when it finds two
    or more; with any count other than one the execution fails at the
    assertion, before it does anything. When the path of the runtime
    directory holds no metacharacter, the files the glob finds are the
    entries of that directory named [kernel-*.json]. *)
Theorem connection_discovery_needs_exactly_one
    (session_info : json) (cmd : string) (k : kernel) (w : world) :
  let matches := glob_connection_files (runtime_listing k) in
  (length matches = 0 →
     locate_connection_file (runtime_listing k) w = (Raise AssertionError, w))
  ∧ (length matches = 1 →
       ∃ path, matches = [path]
               ∧ locate_connection_file (runtime_listing k) w = (Ok path, w))
  ∧ (2 ≤ length matches →
       locate_connection_file (runtime_listing k) w = (Raise AssertionError, w))
  ∧ (length matches ≠ 1 →
       execute_cmd_in_jupyter session_info cmd k w = (Raise AssertionError, w))
  ∧ (has_magic runtime_dir = false →
       matches
       = path_join runtime_dir
           <$> List.filter (fnmatch_star "kernel-" ".json") (runtime_listing k)).
Proof.
  cbn zeta. unfold StartUp.execute_cmd_in_jupyter.
  unfold mbind at 1, M_bind at 1.
  rewrite locate_connection_file_spec.
  split; [|split; [|split; [|split]]];
    [| | | |apply glob_connection_files_plain];
    destruct (glob_connection_files (runtime_listing k))
      as [|path [|path' rest]]; simpl; try done; try lia.
  intros _. by exists path.
Qed.

(** C1, as amended. With the connection file found: when the correlated
    reply comes within the 60 s budget the function prints it and returns,
    and the drain task is then cancelled, unless it had already finished;
    when no correlated reply comes within the budget the function fails with
    the timeout error. *)
Theorem drain_cancelled_once_reply_received
    (session_info : json) (cmd : string) (k : kernel) (w : world)
    (connection_file : string) :
  glob_connection_files (runtime_listing k) = [connection_file] →
  let r := execute_cmd_in_jupyter session_info cmd k w in
  match correlated_reply (msg_id k) 60000 (arrivals k) with
  | Some (reply, delay) =>
      r.1 = Ok tt
      ∧ last (trace r.2)
        = Some (Print (ExecuteFinished reply (submit_took + delay)))
      ∧ (drain r.2 = Some TaskCancelled ∨ drain r.2 = Some TaskFinished)
  | None => r.1 = Raise TimeoutError
  end.
Proof.
  intros Hone. cbn zeta.
  rewrite (execute_cmd_in_jupyter_spec session_info cmd k w connection_file
             Hone).
  destruct (correlated_reply _ _ _) as [[reply delay]|]; [|done].
  cbn [fst snd trace drain]. repeat split.
  - by rewrite !app_assoc, last_snoc.
  - destruct (first_iopub _ _ _); [by right | by left].
Qed.

(** C3, as amended. With the connection file found: of the side-channel
    messages that come before the reply, the drain task takes the first one
    only, and having taken it the task is finished on its own; the outcome of
    the execution, the reply it prints and the time it measures are those of
    the same kernel sending no side-channel message at all. *)
Theorem drain_takes_one_event_and_reply_is_independent
    (session_info : json) (cmd : string) (k : kernel) (w : world)
    (connection_file : string) :
  glob_connection_files (runtime_listing k) = [connection_file] →
  let events := iopub_before_reply (msg_id k) 60000 (arrivals k) in
  let quiet :=
    Kernel (runtime_listing k) (msg_id k) (without_iopub 0 (arrivals k)) in
  let r := execute_cmd_in_jupyter session_info cmd k w in
  let r' := execute_cmd_in_jupyter session_info cmd quiet w in
  received (trace r.2) = received (trace w) ++ take 1 events
  ∧ (events ≠ [] → drain r.2 = Some TaskFinished)
  ∧ r.1 = r'.1
  ∧ finished (trace r.2) = finished (trace r'.2).
Proof.
  intros Hone. cbn zeta.
  rewrite (execute_cmd_in_jupyter_spec session_info cmd k w connection_file
             Hone).
  rewrite (execute_cmd_in_jupyter_spec session_info cmd (Kernel _ _ _) w
             connection_file Hone).
  cbn [msg_id arrivals].
  rewrite correlated_reply_without_iopub by lia.
  rewrite first_iopub_without_iopub, N.sub_0_r, first_iopub_head.
  destruct (correlated_reply _ _ _) as [[reply delay]|];
    destruct (iopub_before_reply _ _ _) as [|m events];
    cbn [fst snd trace drain head fmap option_fmap option_map take];
    rewrite ?N.add_0_l, ?received_app, ?finished_app; simpl;
    rewrite ?app_nil_r; done.
Qed.

End ExecutionFacts.

(** ** Orchestration *)

Section OrchestrationFacts.

Variable SESSION_PATH : string.
Variable py_str : json → string.
Variable json_dumps : json → string.
Variable writable : string → bool.
Variable glob_dirs : string → list (string * list string).
Variable submit_took : N.
Variable overshoot : N.

Local Abbreviation create_session :=
  (StartUp.create_session SESSION_PATH py_str json_dumps writable).
Local Abbreviation execute_cmd_in_jupyter :=
  (StartUp.execute_cmd_in_jupyter SESSION_PATH glob_dirs submit_took overshoot).
Local Abbreviation main :=
  (StartUp.main SESSION_PATH py_str json_dumps writable glob_dirs submit_took
     overshoot).
Local Abbreviation script :=
  (StartUp.script SESSION_PATH py_str json_dumps writable glob_dirs submit_took
     overshoot).

Lemma trace_cancel (w : world) : trace (cancel w) = trace w.
Proof. unfold cancel. by destruct (drain w) as [[]|]. Qed.

(** X15. When the server got ready, the session was created and the
    pre-warm execution returns, the script holds open for 100 s and then
    waits for the server it started, and ends normally. *)
Lemma script_holds_open_after_execution
    (env : surroundings) (w w1 w2 w3 : world) (session_info : json) :
  wait_for_server (status_answers env)
    (World (now w)
       (trace w ++ [Spawn ["jupyter"; "server"; "--IdentityProvider.token="]])
       (files w) (drain w))
  = (Ok tt, w1) →
  create_session (session_answer env) w1 = (Ok session_info, w2) →
  execute_cmd_in_jupyter session_info JUPYTER_CMD (the_kernel env) w2
  = (Ok tt, w3) →
  (script env w).1 = Ok tt
  ∧ trace (script env w).2 = trace w3 ++ [Sleep 100000; WaitChild].
Proof.
  intros H1 H2 H3. unfold StartUp.script, asyncio_run, StartUp.main. run.
  rewrite H1, H2, H3. simpl. split; [done|].
  unfold cancel. simpl. destruct (drain w3) as [[]|]; simpl;
    by rewrite <- app_assoc.
Qed.

(** C2, as amended. When the server got ready, the session was created and
    the pre-warm execution ends with the timeout error, the error is not
    handled anywhere: the whole script ends with it, and what it has done
    stops at the execution step, without the 100 s hold and without the wait
    for the child process. *)
Theorem script_timeout_is_fatal
    (env : surroundings) (w w1 w2 w3 : world) (session_info : json) :
  wait_for_server (status_answers env)
    (World (now w)
       (trace w ++ [Spawn ["jupyter"; "server"; "--IdentityProvider.token="]])
       (files w) (drain w))
  = (Ok tt, w1) →
  create_session (session_answer env) w1 = (Ok session_info, w2) →
  execute_cmd_in_jupyter session_info JUPYTER_CMD (the_kernel env) w2
  = (Raise TimeoutError, w3) →
  script env w = (Raise TimeoutError, cancel w3)
  ∧ trace (script env w).2 = trace w3.
Proof.
  intros H1 H2 H3. unfold StartUp.script, asyncio_run, StartUp.main. run.
  rewrite H1, H2, H3. simpl. split; [done|]. apply trace_cancel.
Qed.

End OrchestrationFacts.

(** ** The rotating metrics log *)

Section RotationFacts.

Import Monitor.

Variable never_roll_empty : bool.

Local Abbreviation shouldRollover := (Monitor.shouldRollover never_roll_empty).
Local Abbreviation emit := (Monitor.emit never_roll_empty).
Local Abbreviation run := (Monitor.run never_roll_empty).
Local Abbreviation main := (Monitor.main never_roll_empty).

Implicit Types (m : gmap nat (list string)) (st : log_state) (h : handler).










Lemma bytes_app (a b : list string) : (bytes (a ++ b) = bytes a + bytes b)%N.
Proof. induction a as [|l a IH]; simpl; lia. Qed.

Lemma base_insert m (c : list string) : base (<[0 := c]> m) = c.
Proof. unfold base. by rewrite lookup_insert_eq. Qed.

Lemma open_base_lookup_0 m : open_base m !! 0 = Some (base m).
Proof.
  unfold open_base, base. destruct (m !! 0) as [c|] eqn:H0; simpl; [done|].
  by rewrite lookup_insert_eq.
Qed.

Lemma open_base_lookup_ne m (i : nat) : i ≠ 0 → open_base m !! i = m !! i.
Proof.
  intros Hi. unfold open_base. destruct (m !! 0); [done|].
  by rewrite lookup_insert_ne.
Qed.

Lemma base_open_base m : base (open_base m) = base m.
Proof. unfold base at 1. by rewrite open_base_lookup_0. Qed.

Lemma insert_open_base m (c : list string) :
  <[0 := c]> (open_base m) = <[0 := c]> m.
Proof.
  unfold open_base. destruct (m !! 0); [done|]. by rewrite insert_insert_eq.
Qed.

Lemma shouldRollover_open_base h m (line : string) :
  shouldRollover h (open_base m) line = shouldRollover h m line.
Proof. unfold Monitor.shouldRollover. by rewrite base_open_base. Qed.

(** The two ways of [emit]. *)
Lemma emit_no_rollover h st (line : string) :
  shouldRollover h (store st) line = false →
  emit h st line
  = LogState (<[0 := base (store st) ++ [line]]> (store st)) (rollovers st).
Proof.
  intros Hno. unfold Monitor.emit.
  rewrite shouldRollover_open_base, Hno. cbn [store rollovers].
  by rewrite base_open_base, insert_open_base.
Qed.

Lemma emit_rollover h st (line : string) :
  shouldRollover h (store st) line = true →
  emit h st line
  = LogState
      (<[0 := base (doRollover h (open_base (store st))) ++ [line]]>
         (doRollover h (open_base (store st))))
      (S (rollovers st)).
Proof.
  intros Hroll. unfold Monitor.emit.
  by rewrite shouldRollover_open_base, Hroll.
Qed.

(** When no rollover is due for a line, the live file with the line is
    under the cap, provided the line is short or empty files are rolled
    over too. *)
Lemma no_rollover_under_cap h m (line : string) :
  (0 < maxBytes h)%N →
  never_roll_empty = false ∨ short h line →
  shouldRollover h m line = false →
  (bytes (base m) + (N.of_nat (String.length line) + 1) < maxBytes h)%N.
Proof.
  unfold Monitor.shouldRollover, short. intros Hpos Hor.
  assert ((0 <? maxBytes h)%N = true) as -> by by apply N.ltb_lt.
  destruct never_roll_empty; simpl.
  - destruct Hor as [|Hshort]; [done|].
    destruct (N.eqb_spec (bytes (base m)) 0) as [->|_].
    + intros _. lia.
    + intros H%N.leb_gt. lia.
  - intros H%N.leb_gt. lia.
Qed.

Lemma run_cons h (l : string) (rest : list string) st :
  run h (l :: rest) st = run h rest (emit h st l).
Proof. reflexivity. Qed.






(** Rolling over with two backups: the live file becomes backup 1, backup 1
    becomes backup 2, and a backup 2 that is replaced is lost. *)
Lemma doRollover_two_backups h m (c : list string) :
  backupCount h = 2 →
  m !! 0 = Some c →
  doRollover h m !! 0 = Some []
  ∧ doRollover h m !! 1 = Some c
  ∧ doRollover h m !! 2
    = match m !! 1 with Some c1 => Some c1 | None => m !! 2 end.
Proof.
  intros Hcount H0. unfold doRollover. rewrite Hcount. simpl.
  unfold open_base, rename.
  destruct (m !! 1) as [c1|] eqn:H1; simpl.
  all: repeat (first [ rewrite lookup_delete_eq | rewrite lookup_insert_eq
                     | rewrite lookup_delete_ne by done
                     | rewrite lookup_insert_ne by done
                     | rewrite H0 | rewrite H1 ]; simpl).
  all: done.
Qed.

(** A rollover with two backups, seen on the files. *)
Lemma emit_rotated_at h st (line : string) :
  backupCount h = 2 →
  shouldRollover h (store st) line = true →
  rotated_at (store st) (store (emit h st line)) line.
Proof.
  intros Hcount Hroll. rewrite emit_rollover by done. cbn [store].
  destruct (doRollover_two_backups h (open_base (store st)) (base (store st))
              Hcount (open_base_lookup_0 _)) as (D0 & D1 & D2).
  rewrite !open_base_lookup_ne in D2 by done.
  unfold rotated_at. rewrite base_insert, !lookup_insert_ne by done.
  unfold base at 1. by rewrite D0, D1, D2.
Qed.

(** With at least one backup, a rollover leaves an empty live file. *)
Lemma doRollover_base_empty h m :
  0 < backupCount h → base (doRollover h m) = [].
Proof.
  intros Hcount. unfold doRollover, open_base, base.
  destruct (Nat.ltb_spec 0 (backupCount h)); [|lia].
  unfold rename at 1 2 3. rewrite lookup_delete_ne by done.
  destruct (shift_backups _ _ !! 0) eqn:H0.
  - rewrite lookup_insert_ne, lookup_delete_eq by done.
    by rewrite lookup_insert_eq.
  - rewrite lookup_delete_ne, H0 by done.
    by rewrite lookup_insert_eq.
Qed.



(** With at least one backup and lines that fit under the cap, the base
    file stays under the cap. *)
Lemma run_base_under_cap h (samples : list string) st :
  0 < backupCount h →
  Forall (short h) samples →
  (bytes (base (store st)) < maxBytes h)%N →
  (bytes (base (store (run h samples st))) < maxBytes h)%N.
Proof.
  intros Hcount Hshort. revert st.
  induction Hshort as [|l rest Hl _ IH]; intros st Hlt; [done|].
  rewrite run_cons. apply IH.
  destruct (shouldRollover h (store st) l) eqn:Hroll.
  - rewrite emit_rollover by done. cbn [store].
    rewrite base_insert, doRollover_base_empty by done.
    unfold short in Hl. simpl. lia.
  - rewrite emit_no_rollover by done. cbn [store].
    rewrite base_insert, bytes_app. simpl.
    pose proof (no_rollover_under_cap h (store st) l) as H.
    unfold short in *. specialize (H ltac:(lia) (or_intror Hl) Hroll). lia.
Qed.








End RotationFacts.

(** ** Worked examples *)

Section Examples.

Import Sample.

(** The examples run on a host where every file can be opened, where
    submitting the request takes 2 ms and where a timeout is noticed 80 ms
    late. *)
Local Abbreviation create_session :=
  (StartUp.create_session home render render all_writable).
Local Abbreviation execute_cmd_in_jupyter :=
  (StartUp.execute_cmd_in_jupyter home no_dirs 2 80).
Local Abbreviation script :=
  (StartUp.script home render render all_writable no_dirs 2 80).

(** C4: an idle kernel whose id is missing from the body. The failure is the
    [KeyError] of line 55, which shows neither the body nor the status. *)
Lemma idle_without_id_raises_key_error :
  (create_session idle_without_id boot).1 = Raise (KeyError "id")
  ∧ ¬ protocol_violation render (create_session idle_without_id boot).1
        idle_without_id.
Proof.
  assert ((create_session idle_without_id boot).1 = Raise (KeyError "id"))
    as H by reflexivity.
  split; [done|]. rewrite H. by intros (msg & [=] & _).
Qed.

(** C4: an idle kernel with its id is refused with the body and the status
    in the message. *)
Lemma idle_kernel_is_refused :
  protocol_violation render (create_session idle boot).1 idle.
Proof.
  assert (JStr "idle" ≠ JStr "starting") as Hne by discriminate.
  exact (proj2 (create_session_rejects_unexpected_state home render render
                  all_writable idle boot (JStr "idle") eq_refl Hne) (JStr "abc123") eq_refl).
Defined.

(** C8: the scenario of the specification, kernel id "abc123", on a host
    whose home has no directory [.jupyter]: opening the kernel-id file fails,
    nothing is returned and no file is written. *)
Lemma missing_directory_persists_nothing :
  (StartUp.create_session home render render none_writable created boot).1
  = Raise OSError
  ∧ files
      (StartUp.create_session home render render none_writable created boot).2
    = ∅.
Proof. split; vm_compute; reflexivity. Qed.

(** C8: the scenario of the specification, kernel id "abc123", where the
    files can be opened. *)
Lemma abc123_is_persisted :
  (create_session created boot).1 = Ok (resp_json created)
  ∧ files (create_session created boot).2 !! "/root/.jupyter/kernel_id"
    = Some "abc123".
Proof.
  destruct (create_session_persists_descriptor home render render
              all_writable created boot "abc123") as (Hret & Hid & _); [reflexivity..|].
  split; [exact Hret | exact Hid].
Defined.

(** C10: a refused response leaves the files alone. *)
Lemma refused_response_writes_nothing :
  files (create_session idle_without_id boot).2 = ∅.
Proof.
  refine (proj2 (create_session_failure_writes_nothing home render render
                   all_writable idle_without_id boot _)).
  left. reflexivity.
Defined.

(** C5: a 503 is a response of a reachable endpoint, and the loop goes on:
    with this answer alone it is still polling, and with a 200 after it the
    function returns after two requests. *)
Lemma status_503_keeps_polling :
  (wait_for_server [Probe (Responded 503) 5] boot).1 = Blocked
  ∧ count_gets
      (trace (wait_for_server
                [Probe (Responded 503) 5; Probe (Responded 200) 5] boot).2)
    = 2.
Proof. split; vm_compute; reflexivity. Qed.

(** C5: a 200 ends the loop at once. *)
Lemma status_200_stops_polling :
  (wait_for_server [Probe (Responded 200) 5] boot).1 = Ok tt.
Proof.
  refine (proj1 (proj2 (wait_for_server_stops_on_200_only
                          (Probe (Responded 200) 5) [] boot) _)).
  reflexivity.
Defined.

(** C7: 503 twice, then 200: three requests, two sleeps. *)
Lemma third_probe_succeeds :
  (wait_for_server three_probes boot).1 = Ok tt
  ∧ count_gets (trace (wait_for_server three_probes boot).2) = 3
  ∧ count_sleeps (trace (wait_for_server three_probes boot).2) = 2.
Proof.
  destruct (wait_for_server_returns_at_first_success
              [Probe (Responded 503) 5; Probe (Responded 503) 5]
              (Probe (Responded 200) 5) [] boot)
    as (Hret & Hgets & Hsleeps & _).
  - by repeat constructor.
  - reflexivity.
  - split; [exact Hret | split; [exact Hgets | exact Hsleeps]].
Defined.

(** C6: runtime directories with no, one, two and five connection files;
    and a home whose name holds a metacharacter, where the glob looks into
    the directories the name expands to (none here) and not into the runtime
    directory, whose one connection file it does not find. *)
Lemma discovery_with_0_1_2_5_files :
  (execute_cmd_in_jupyter JNull JUPYTER_CMD (kernel_with 0) boot).1
  = Raise AssertionError
  ∧ (StartUp.locate_connection_file home no_dirs (listing 1) boot).1
    = Ok "/root/.local/share/jupyter/runtime/kernel-a.json"
  ∧ (execute_cmd_in_jupyter JNull JUPYTER_CMD (kernel_with 2) boot).1
    = Raise AssertionError
  ∧ (execute_cmd_in_jupyter JNull JUPYTER_CMD (kernel_with 5) boot).1
    = Raise AssertionError
  ∧ (StartUp.execute_cmd_in_jupyter magic_home no_dirs 2 80 JNull JUPYTER_CMD
       (kernel_with 1) boot).1
    = Raise AssertionError.
Proof.
  pose proof (λ n, connection_discovery_needs_exactly_one home no_dirs 2 80
                     JNull JUPYTER_CMD (kernel_with n) boot) as H.
  destruct (H 0) as (_ & _ & _ & H0 & _), (H 1) as (_ & H1 & _),
    (H 2) as (_ & _ & _ & H2 & _), (H 5) as (_ & _ & _ & H5 & _).
  destruct (connection_discovery_needs_exactly_one magic_home no_dirs 2 80
              JNull JUPYTER_CMD (kernel_with 1) boot) as (_ & _ & _ & Hm & _).
  destruct (H1 eq_refl) as (name & [= <-] & Hloc).
  assert (0 ≠ 1 ∧ 2 ≠ 1 ∧ 5 ≠ 1) as (N0 & N2 & N5) by lia.
  split; [exact (f_equal fst (H0 N0))|].
  split; [exact (f_equal fst Hloc)|].
  split; [exact (f_equal fst (H2 N2))|].
  split; [exact (f_equal fst (H5 N5)) | exact (f_equal fst (Hm N0))].
Defined.

(** C1: the kernel never answers. The function ends with the timeout
    error, and the drain task is left waiting: nothing has cancelled it. *)
Lemma timeout_leaves_drain_waiting :
  (execute_cmd_in_jupyter JNull JUPYTER_CMD silent_kernel boot).1
  = Raise TimeoutError
  ∧ drain (execute_cmd_in_jupyter JNull JUPYTER_CMD silent_kernel boot).2
    = Some TaskWaiting.
Proof. split; vm_compute; reflexivity. Qed.

(** C1: the reply comes 50 ms into the wait, which began 2 ms after the
    start of the measurement. *)
Lemma reply_after_50ms :
  (execute_cmd_in_jupyter JNull JUPYTER_CMD busy_kernel boot).1 = Ok tt
  ∧ last (trace (execute_cmd_in_jupyter JNull JUPYTER_CMD busy_kernel boot).2)
    = Some (Print (ExecuteFinished reply 52)).
Proof.
  pose proof (drain_cancelled_once_reply_received home no_dirs 2 80 JNull
                JUPYTER_CMD busy_kernel boot
                "/root/.local/share/jupyter/runtime/kernel-7f3a.json"
                eq_refl) as H.
  assert (correlated_reply (msg_id busy_kernel) 60000 (arrivals busy_kernel)
          = Some (reply, 50%N)) as E by (vm_compute; reflexivity).
  rewrite E in H. destruct H as (Hret & Hlast & _).
  split; [exact Hret | exact Hlast].
Defined.

(** C3: two side-channel messages come before the reply. The task takes the
    first one and is finished before anything cancels it; the second one is
    never received. *)
Lemma second_iopub_message_is_not_received :
  iopub_before_reply (msg_id busy_kernel) 60000 (arrivals busy_kernel)
  = [JStr "busy"; JStr "stream"]
  ∧ received
      (trace (execute_cmd_in_jupyter JNull JUPYTER_CMD busy_kernel boot).2)
    = [JStr "busy"]
  ∧ drain (execute_cmd_in_jupyter JNull JUPYTER_CMD busy_kernel boot).2
    = Some TaskFinished.
Proof. split; [|split]; vm_compute; reflexivity. Qed.

(** C3: the reply printed with the two messages is the reply printed
    without them. *)
Lemma reply_same_without_iopub :
  finished (trace (execute_cmd_in_jupyter JNull JUPYTER_CMD busy_kernel boot).2)
  = [(reply, 52%N)].
Proof.
  destruct (drain_takes_one_event_and_reply_is_independent home no_dirs 2
              80 JNull JUPYTER_CMD busy_kernel boot
              "/root/.local/share/jupyter/runtime/kernel-7f3a.json" eq_refl)
    as (_ & _ & _ & ->).
  reflexivity.
Defined.

(** C2: the server gets ready, the session is created, the kernel never
    answers. The script ends with the timeout error, having neither held
    open nor waited for the server it started. *)
Lemma silent_kernel_ends_the_script :
  (script silent_run boot).1 = Raise TimeoutError
  ∧ held_open (trace (script silent_run boot).2) = false
  ∧ waited_for_child (trace (script silent_run boot).2) = false.
Proof. split; [|split]; vm_compute; reflexivity. Qed.

Lemma silent_kernel_timeout_is_fatal :
  (script silent_run boot).1 = Raise TimeoutError.
Proof.
  pose (w1 := (wait_for_server three_probes
                 (World 0 [Spawn ["jupyter"; "server";
                                  "--IdentityProvider.token="]] ∅ None)).2).
  pose (w2 := (create_session created w1).2).
  pose (w3 := (execute_cmd_in_jupyter (resp_json created) JUPYTER_CMD
                 silent_kernel w2).2).
  destruct (script_timeout_is_fatal home render render all_writable no_dirs
              2 80 silent_run boot
              w1 w2 w3 (resp_json created)) as [H _];
    [vm_compute; reflexivity.. |].
  by rewrite H.
Defined.



End Examples.

(** ** More on readiness polling *)

Section PollingMore.

#[local] Arguments Nat.modulo : simpl never.
#[local] Arguments Nat.div : simpl never.
#[local] Arguments failed_turn : simpl never.

Lemma count_waiting_app (a b : list action) :
  count_waiting (a ++ b) = count_waiting a + count_waiting b.
Proof. unfold count_waiting. by rewrite List.filter_app, length_app. Qed.

Lemma count_posts_app (a b : list action) :
  count_posts (a ++ b) = count_posts a + count_posts b.
Proof. unfold count_posts. by rewrite List.filter_app, length_app. Qed.

Lemma div_20_step (c : nat) :
  S c / 20 - c / 20 = if (S c mod 20 =? 0)%nat then 1 else 0.
Proof.
  pose proof (Nat.div_mod_eq (S c) 20). pose proof (Nat.div_mod_eq c 20).
  pose proof (Nat.mod_upper_bound (S c) 20).
  pose proof (Nat.mod_upper_bound c 20).
  destruct (Nat.eqb_spec (S c mod 20) 0); lia.
Qed.

Lemma failed_turn_waiting (counter : nat) :
  count_waiting (failed_turn counter) = S counter / 20 - counter / 20.
Proof.
  rewrite div_20_step. unfold failed_turn.
  by destruct (S counter mod 20 =? 0)%nat.
Qed.

Lemma failed_turn_posts (counter : nat) : count_posts (failed_turn counter) = 0.
Proof. unfold failed_turn. by destruct (S counter mod 20 =? 0)%nat. Qed.

Lemma div_20_mono (a b : nat) : a ≤ b → a / 20 ≤ b / 20.
Proof. intros. by apply Nat.Div0.div_le_mono. Qed.

(** The loop on its own: it never raises, it leaves the files and the drain
    task alone, it sends no POST, and it prints the waiting line each time
    the count of failed probes reaches a multiple of 20. *)
Lemma poll_effects (probes : list probe) (counter : nat) (w : world) :
  let r := poll probes counter w in
  (∀ e, r.1 ≠ Raise e)
  ∧ files r.2 = files w
  ∧ drain r.2 = drain w
  ∧ count_posts (trace r.2) = count_posts (trace w).
Proof.
  revert counter w. induction probes as [|p rest IH]; intros counter w.
  - by repeat split.
  - cbn zeta. rewrite poll_cons. destruct (ready (answer p)).
    + repeat split; [done|]. cbn [snd trace].
      rewrite count_posts_app. change (count_posts [HttpGet _]) with 0. lia.
    + destruct (IH (S counter)
                  (World (now w + took p + 100) (trace w ++ failed_turn counter)
                     (files w) (drain w))) as (H1 & H2 & H3 & H4).
      repeat split; [done..|].
      rewrite H4. cbn [trace]. rewrite count_posts_app, failed_turn_posts. lia.
Qed.

Lemma poll_waiting_count
    (failed : list probe) (p : probe) (rest : list probe) (counter : nat)
    (w : world) :
  Forall (λ q, ready (answer q) = false) failed →
  ready (answer p) = true →
  count_waiting (trace (poll (failed ++ p :: rest) counter w).2)
  = count_waiting (trace w)
    + ((counter + length failed) / 20 - counter / 20).
Proof.
  intros H Hp. revert counter w.
  induction H as [|q failed Hq _ IH]; intros counter w.
  - simpl app. rewrite poll_cons, Hp. cbn [snd trace length].
    rewrite count_waiting_app.
    replace ((counter + 0) / 20 - counter / 20) with 0
      by (rewrite (Nat.add_0_r counter); lia).
    change (count_waiting [HttpGet _]) with 0. lia.
  - simpl app. rewrite poll_cons, Hq, IH. cbn [trace length].
    rewrite count_waiting_app, failed_turn_waiting.
    pose proof (div_20_mono counter (S counter)).
    pose proof (div_20_mono (S counter) (S counter + length failed)).
    replace (counter + S (length failed)) with (S counter + length failed)
      by lia.
    lia.
Qed.

Lemma wait_for_server_never_raises_aux (probes : list probe) (w : world) :
  files (wait_for_server probes w).2 = files w
  ∧ count_posts (trace (wait_for_server probes w).2) = count_posts (trace w).
Proof.
  rewrite wait_for_server_unfold.
  destruct (poll_effects probes 0 w) as (H1 & H2 & H3 & H4).
  destruct (poll probes 0 w) as [[[]|e|] w']; simpl in *; [|done..].
  split; [done|]. rewrite count_posts_app, H4.
  change (count_posts [Print _]) with 0. lia.
Qed.

(** X1. [wait_for_server] never raises: whatever the probes answer, it
    returns or is still polling; and it leaves the files and the drain task
    as they were and sends no POST. *)
Theorem wait_for_server_never_raises (probes : list probe) (w : world) :
  let r := wait_for_server probes w in
  (∀ e, r.1 ≠ Raise e)
  ∧ files r.2 = files w
  ∧ drain r.2 = drain w
  ∧ count_posts (trace r.2) = count_posts (trace w).
Proof.
  cbn zeta. rewrite wait_for_server_unfold.
  destruct (poll_effects probes 0 w) as (H1 & H2 & H3 & H4).
  destruct (poll probes 0 w) as [[[]|e|] w']; simpl in *.
  - repeat split; [done..|]. rewrite count_posts_app, H4.
    change (count_posts [Print _]) with 0. lia.
  - by destruct (H1 e).
  - by repeat split.
Qed.

(** X2. When the N-th probe is the first one answered with 200, the
    waiting line has been printed once for every 20 failed probes:
    (N-1) / 20 times. *)
Theorem wait_for_server_reports_every_20_failures
    (failed : list probe) (p : probe) (rest : list probe) (w : world) :
  Forall (λ q, ready (answer q) = false) failed →
  ready (answer p) = true →
  count_waiting (trace (wait_for_server (failed ++ p :: rest) w).2)
  = count_waiting (trace w) + length failed / 20.
Proof.
  intros Hf Hp.
  pose proof (poll_waiting_count failed p rest 0 w Hf Hp) as Hc.
  destruct (poll_first_ready failed p rest 0 w Hf Hp) as (tr & Hpoll & _).
  rewrite wait_for_server_unfold. rewrite Hpoll in *. cbn [snd trace] in *.
  rewrite count_waiting_app, Hc.
  change (count_waiting [Print _]) with 0.
  change (0 / 20) with 0. rewrite Nat.add_0_l. lia.
Qed.

End PollingMore.

(** ** More on session creation *)

Section SessionMore.

Variable SESSION_PATH : string.
Variable py_str : json → string.
Variable json_dumps : json → string.
Variable writable : string → bool.

Local Abbreviation create_session :=
  (StartUp.create_session SESSION_PATH py_str json_dumps writable).
Local Abbreviation kernel_id_path := (StartUp.kernel_id_path SESSION_PATH).
Local Abbreviation session_info_path := (StartUp.session_info_path SESSION_PATH).
Local Abbreviation runtime_dir := (StartUp.runtime_dir SESSION_PATH).

Lemma create_session_posts_once_aux (resp : response) (w : world) :
  trace (create_session resp w).2
  = trace w ++ [HttpPost (BASE_URL +:+ "/api/sessions") (payload SESSION_PATH)]
  ∧ now (create_session resp w).2 = now w
  ∧ drain (create_session resp w).2 = drain w.
Proof.
  unfold StartUp.create_session. run.
  destruct (getitem2 _ "kernel" "id") as [kid|e|]; [|done..].
  destruct (getitem2 _ "kernel" "execution_state") as [st|e|]; [|done..].
  destruct (ne_str st "starting"); [done|].
  destruct (writable kernel_id_path); [|done].
  destruct kid; try done. simpl. by destruct (writable session_info_path).
Qed.

(** X3. Whatever the answer, and whether it succeeds or fails,
    [create_session] sends exactly one request, the POST of the fixed payload
    to the sessions endpoint; it takes no time of its own and leaves the
    drain task alone. *)
Theorem create_session_posts_once (resp : response) (w : world) :
  trace (create_session resp w).2
  = trace w ++ [HttpPost (BASE_URL +:+ "/api/sessions") (payload SESSION_PATH)]
  ∧ now (create_session resp w).2 = now w
  ∧ drain (create_session resp w).2 = drain w.
Proof. apply create_session_posts_once_aux. Qed.

(** X4. Where the kernel-id file can be opened for writing, a response in
    state "starting" whose kernel id is not a string fails with [TypeError]
    in [f.write], after the kernel-id file was opened: that file is left
    empty, and no other file is touched. *)
Theorem create_session_non_string_id_truncates
    (resp : response) (w : world) (kid : json) :
  writable kernel_id_path = true →
  getitem2 (resp_json resp) "kernel" "id" = Ok kid →
  (∀ s, kid ≠ JStr s) →
  getitem2 (resp_json resp) "kernel" "execution_state" = Ok (JStr "starting") →
  (create_session resp w).1 = Raise TypeError
  ∧ files (create_session resp w).2 !! kernel_id_path = Some ""
  ∧ (∀ p, p ≠ kernel_id_path →
          files (create_session resp w).2 !! p = files w !! p).
Proof.
  intros Hk Hid Hns Hst. unfold StartUp.create_session. run.
  rewrite Hid, Hst. simpl. rewrite Hk. simpl.
  destruct kid; try (by destruct (Hns s)); simpl;
    (repeat split; [apply lookup_insert_eq | intros p Hp; by apply lookup_insert_ne]).
Qed.

(** X5. A body that misses a key fails with the [KeyError] of the first key
    missing in the order the code reads them: "kernel", then "id", then
    "execution_state"; a kernel entry that is not an object fails with
    [TypeError]. *)
Theorem create_session_names_first_missing_key
    (resp : response) (w : world) (fields : list (string * json)) :
  resp_json resp = JObj fields →
  match assoc "kernel" fields with
  | None => (create_session resp w).1 = Raise (KeyError "kernel")
  | Some (JObj kernel) =>
      (assoc "id" kernel = None →
       (create_session resp w).1 = Raise (KeyError "id"))
      ∧ (is_Some (assoc "id" kernel) →
         assoc "execution_state" kernel = None →
         (create_session resp w).1 = Raise (KeyError "execution_state"))
  | Some _ => (create_session resp w).1 = Raise TypeError
  end.
Proof.
  intros Hbody.
  pose proof (create_session_validation SESSION_PATH py_str json_dumps
                writable resp w) as V.
  simpl in V. unfold getitem2, getitem in V. rewrite Hbody in V.
  destruct (assoc "kernel" fields) as [[| | | | |kernel]|];
    try by rewrite V.
  split.
  - intros Hid. rewrite Hid in V. by rewrite V.
  - intros [kid Hid] Hst. rewrite Hid, Hst in V. by rewrite V.
Qed.

(** X6. Creating the session again with the same well-formed answer leaves
    the files as the first creation left them: the two files are
    overwritten, not appended to. *)
Theorem create_session_overwrites
    (resp : response) (w : world) (kid : string) :
  getitem2 (resp_json resp) "kernel" "id" = Ok (JStr kid) →
  getitem2 (resp_json resp) "kernel" "execution_state" = Ok (JStr "starting") →
  files (create_session resp (create_session resp w).2).2
  = files (create_session resp w).2.
Proof.
  intros Hid Hst. unfold StartUp.create_session. run.
  rewrite Hid, Hst. simpl.
  pose proof (kernel_id_path_ne_session_info_path SESSION_PATH) as Hne.
  destruct (writable kernel_id_path); [|done]. simpl.
  destruct (writable session_info_path); simpl;
    [|by rewrite !insert_insert_eq].
  apply map_eq. intros p.
  destruct (decide (p = session_info_path)) as [->|H1];
    [by rewrite !lookup_insert_eq|].
  rewrite !(lookup_insert_ne _ session_info_path) by done.
  destruct (decide (p = kernel_id_path)) as [->|H2];
    [by rewrite !lookup_insert_eq|].
  by rewrite !lookup_insert_ne by done.
Qed.

(** X7. The HTTP status never decides anything: with the same body, two
    statuses give the same success or failure, the same returned descriptor
    and the same files. *)
Theorem create_session_ignores_status
    (body : json) (status status' : Z) (w : world) :
  is_raise (create_session (Response body status) w).1
  = is_raise (create_session (Response body status') w).1
  ∧ (∀ v, (create_session (Response body status) w).1 = Ok v →
          (create_session (Response body status') w).1 = Ok v)
  ∧ files (create_session (Response body status) w).2
    = files (create_session (Response body status') w).2.
Proof.
  unfold StartUp.create_session. run.
  destruct (getitem2 _ "kernel" "id") as [kid|e|]; [|done..].
  destruct (getitem2 _ "kernel" "execution_state") as [st|e|]; [|done..].
  destruct (ne_str st "starting"); [done|].
  destruct (writable kernel_id_path); [|done].
  by destruct kid.
Qed.

Lemma last_char_cons (c : ascii) (s : string) :
  s ≠ "" → last_char (String c s) = last_char s.
Proof. by destruct s. Qed.

Lemma append_nonempty (a b : string) : b ≠ "" → a +:+ b ≠ "".
Proof. destruct a; [done|]. by rewrite append_cons. Qed.

Lemma last_char_append (a b : string) :
  b ≠ "" → last_char (a +:+ b) = last_char b.
Proof.
  intros Hb. induction a as [|c a IH]; [done|].
  rewrite append_cons, last_char_cons; [done|]. by apply append_nonempty.
Qed.

Lemma path_join_plain (a b : string) :
  a ≠ "" → ends_with_sep a = false → starts_with_sep b = false →
  path_join a b = a +:+ "/" +:+ b.
Proof.
  intros Ha%String.eqb_neq Hs Hb. unfold path_join. by rewrite Hb, Ha, Hs.
Qed.

Lemma path_join_plain_again (a b c : string) :
  b ≠ "" → ends_with_sep b = false → starts_with_sep c = false →
  path_join (a +:+ "/" +:+ b) c = a +:+ "/" +:+ b +:+ "/" +:+ c.
Proof.
  intros Hb Hs Hc. rewrite path_join_plain; [|by apply append_nonempty| |done].
  - by rewrite !append_assoc.
  - unfold ends_with_sep in *.
    rewrite <- append_assoc, last_char_append; done.
Qed.

(** X8. With a home directory that is not empty and does not end with a
    slash, the kernel id is kept in [<home>/.jupyter/kernel_id], the session
    descriptor in [<home>/.jupyter/.session_info], and connection files are
    looked for in [<home>/.local/share/jupyter/runtime]. *)
Theorem persisted_paths_under_home :
  SESSION_PATH ≠ "" →
  ends_with_sep SESSION_PATH = false →
  kernel_id_path = SESSION_PATH +:+ "/.jupyter/kernel_id"
  ∧ session_info_path = SESSION_PATH +:+ "/.jupyter/.session_info"
  ∧ runtime_dir = SESSION_PATH +:+ "/.local/share/jupyter/runtime".
Proof.
  intros Hne Hs.
  unfold StartUp.kernel_id_path, StartUp.session_info_path, StartUp.runtime_dir.
  rewrite !(path_join_plain SESSION_PATH) by done.
  repeat split.
  - by rewrite path_join_plain_again.
  - by rewrite path_join_plain_again.
  - by rewrite !path_join_plain_again.
Qed.

End SessionMore.

(** ** More on connection discovery *)

Section DiscoveryMore.

Variable SESSION_PATH : string.
Variable glob_dirs : string → list (string * list string).
Variable submit_took : N.
Variable overshoot : N.

Local Abbreviation runtime_dir := (StartUp.runtime_dir SESSION_PATH).
Local Abbreviation glob_connection_files :=
  (StartUp.glob_connection_files SESSION_PATH glob_dirs).
Local Abbreviation locate_connection_file :=
  (StartUp.locate_connection_file SESSION_PATH glob_dirs).
Local Abbreviation execute_cmd_in_jupyter :=
  (StartUp.execute_cmd_in_jupyter SESSION_PATH glob_dirs submit_took overshoot).

Lemma length_append (a b : string) :
  String.length (a +:+ b) = String.length a + String.length b.
Proof.
  induction a as [|c a IH]; [done|]. rewrite append_cons. simpl. by rewrite IH.
Qed.

Lemma prefix_append (pre rest : string) : String.prefix pre (pre +:+ rest) = true.
Proof.
  induction pre as [|c pre IH]; [by destruct rest|].
  rewrite append_cons. simpl. by destruct (ascii_dec c c).
Qed.

Lemma prefix_inv (pre s : string) :
  String.prefix pre s = true → ∃ rest, s = pre +:+ rest.
Proof.
  revert s. induction pre as [|c pre IH]; intros s H; [by exists s|].
  destruct s as [|c' s]; [done|]. simpl in H.
  destruct (ascii_dec c c') as [->|]; [|done].
  destruct (IH s H) as [rest ->]. by exists rest.
Qed.

Lemma substring_skip (pre rest : string) (n : nat) :
  String.substring (String.length pre) n (pre +:+ rest)
  = String.substring 0 n rest.
Proof. induction pre as [|c pre IH]; [done|]. by rewrite append_cons. Qed.

Lemma substring_all (s : string) : String.substring 0 (String.length s) s = s.
Proof. induction s as [|c s IH]; [done|]. simpl. by rewrite IH. Qed.

Lemma substring_split (n : nat) (s : string) :
  n ≤ String.length s →
  s = String.substring 0 n s
      +:+ String.substring n (String.length s - n) s.
Proof.
  revert s. induction n as [|n IH]; intros s Hn.
  - rewrite Nat.sub_0_r, substring_all. by destruct s.
  - destruct s as [|c s]; [simpl in Hn; lia|].
    simpl in *. rewrite append_cons. f_equal. apply IH. lia.
Qed.

Lemma is_suffix_true (suf s : string) :
  is_suffix suf s = true ↔ ∃ mid, s = mid +:+ suf.
Proof.
  unfold is_suffix. rewrite andb_true_iff, Nat.leb_le, String.eqb_eq. split.
  - intros [Hle Hsuf].
    exists (String.substring 0 (String.length s - String.length suf) s).
    pose proof (substring_split (String.length s - String.length suf) s)
      as Hsplit.
    replace (String.length s - (String.length s - String.length suf))
      with (String.length suf) in Hsplit by lia.
    rewrite Hsuf in Hsplit. apply Hsplit. lia.
  - intros [mid ->]. rewrite length_append. split; [lia|].
    replace (String.length mid + String.length suf - String.length suf)
      with (String.length mid) by lia.
    by rewrite substring_skip, substring_all.
Qed.

Lemma fnmatch_star_true (pre suf name : string) :
  fnmatch_star pre suf name = true ↔ ∃ mid, name = pre +:+ mid +:+ suf.
Proof.
  unfold fnmatch_star. rewrite andb_true_iff. split.
  - intros [[rest ->]%prefix_inv Hs].
    rewrite length_append, substring_skip in Hs.
    replace (String.length pre + String.length rest - String.length pre)
      with (String.length rest) in Hs by lia.
    rewrite substring_all in Hs. apply is_suffix_true in Hs as [mid ->].
    by exists mid.
  - intros [mid ->]. split; [apply prefix_append|].
    rewrite length_append, substring_skip.
    replace (String.length pre + String.length (mid +:+ suf)
             - String.length pre)
      with (String.length (mid +:+ suf)) by lia.
    rewrite substring_all. apply is_suffix_true. by exists mid.
Qed.

(** X9. When the path of the runtime directory holds none of the
    metacharacters of glob, the connection files found are exactly the
    entries of the runtime directory named [kernel-<anything>.json] (the part
    in the middle may be empty), each joined to the directory. *)
Theorem glob_finds_kernel_json_files (listing : list string) (path : string) :
  has_magic runtime_dir = false →
  path ∈ glob_connection_files listing
  ↔ ∃ id, "kernel-" +:+ id +:+ ".json" ∈ listing
          ∧ path = path_join runtime_dir ("kernel-" +:+ id +:+ ".json").
Proof.
  intros Hplain. unfold StartUp.glob_connection_files. rewrite Hplain.
  rewrite list_elem_of_fmap. split.
  - intros (name & -> & Hin). apply list_elem_of_In, List.filter_In in Hin.
    destruct Hin as [Hin [id ->]%fnmatch_star_true].
    exists id. split; [by apply list_elem_of_In | done].
  - intros (id & Hin & ->). eexists. split; [done|].
    apply list_elem_of_In, List.filter_In. split; [by apply list_elem_of_In|].
    apply fnmatch_star_true. by exists id.
Qed.

Lemma filter_Permutation_bool {A} (f : A → bool) (l l' : list A) :
  l ≡ₚ l' → List.filter f l ≡ₚ List.filter f l'.
Proof.
  induction 1 as [|x l l' _ IH|x y l|l l' l'' _ IH1 _ IH2]; simpl.
  - done.
  - destruct (f x); [by constructor | done].
  - destruct (f x), (f y); try done. apply perm_swap.
  - by etrans.
Qed.

(** X10. The order in which the runtime directory lists its entries does
    not matter: two listings with the same entries give the same discovery,
    and the same execution. *)
Theorem discovery_ignores_listing_order
    (session_info : json) (cmd : string) (k : kernel) (listing' : list string)
    (w : world) :
  runtime_listing k ≡ₚ listing' →
  locate_connection_file (runtime_listing k) w
  = locate_connection_file listing' w
  ∧ execute_cmd_in_jupyter session_info cmd k w
    = execute_cmd_in_jupyter session_info cmd
        (Kernel listing' (msg_id k) (arrivals k)) w.
Proof.
  intros Hperm.
  assert (locate_connection_file (runtime_listing k) w
          = locate_connection_file listing' w) as Hloc.
  { assert (glob_connection_files (runtime_listing k)
            ≡ₚ glob_connection_files listing') as Hglob.
    { unfold StartUp.glob_connection_files.
      destruct (has_magic runtime_dir); [done|].
      by apply fmap_Permutation, filter_Permutation_bool. }
    rewrite !locate_connection_file_spec.
    destruct (glob_connection_files (runtime_listing k))
      as [|name [|name' rest]].
    - by apply Permutation_nil_l in Hglob as <-.
    - by apply Permutation_singleton_l in Hglob as <-.
    - pose proof (Permutation_length Hglob) as Hlen.
      by destruct (glob_connection_files listing') as [|? [|? ?]]. }
  split; [done|]. unfold StartUp.execute_cmd_in_jupyter.
  unfold mbind at 1 10, M_bind at 1 10. cbn [runtime_listing].
  by rewrite Hloc.
Qed.

End DiscoveryMore.

(** ** More on the pre-warm execution *)

Section ExecutionMore.

Variable SESSION_PATH : string.
Variable glob_dirs : string → list (string * list string).
Variable submit_took : N.
Variable overshoot : N.

Local Abbreviation glob_connection_files :=
  (StartUp.glob_connection_files SESSION_PATH glob_dirs).
Local Abbreviation execute_cmd_in_jupyter :=
  (StartUp.execute_cmd_in_jupyter SESSION_PATH glob_dirs submit_took overshoot).

Lemma correlated_reply_within
    (msg_id : string) (budget : N) (arrivals : list arrival) (m : json) (d : N) :
  correlated_reply msg_id budget arrivals = Some (m, d) → (d ≤ budget)%N.
Proof.
  revert budget d. induction arrivals as [|a rest IH]; intros budget d; [done|].
  simpl. destruct (N.ltb_spec budget (gap a)); [done|].
  assert (∀ later,
            (λ r : json * N, (r.1, gap a + r.2)%N)
              <$> correlated_reply msg_id (budget - gap a) rest = Some (m, later)
            → (later ≤ budget)%N) as Hlater.
  { intros later.
    destruct (correlated_reply msg_id (budget - gap a) rest) as [[m' d']|] eqn:E;
      [|done].
    simpl. intros [= -> <-]. apply IH in E. lia. }
  destruct (event a) as [?|parent m']; [apply Hlater|].
  destruct (String.eqb parent msg_id); [|apply Hlater].
  intros [= _ <-]. lia.
Qed.

Lemma correlated_reply_addressed
    (msg_id : string) (budget : N) (arrivals : list arrival) (m : json) (d : N) :
  correlated_reply msg_id budget arrivals = Some (m, d) →
  Shell msg_id m ∈ event <$> arrivals.
Proof.
  revert budget d. induction arrivals as [|a rest IH]; intros budget d; [done|].
  simpl. destruct (budget <? gap a)%N; [done|].
  assert (∀ later,
            (λ r : json * N, (r.1, gap a + r.2)%N)
              <$> correlated_reply msg_id (budget - gap a) rest = Some (m, later)
            → Shell msg_id m ∈ event a :: (event <$> rest)) as Hlater.
  { intros later.
    destruct (correlated_reply msg_id (budget - gap a) rest) as [[m' d']|] eqn:E;
      [|done].
    simpl. intros [= -> _]. right. by eapply IH. }
  destruct (event a) as [?|parent m']; [apply Hlater|].
  destruct (String.eqb_spec parent msg_id) as [->|]; [|apply Hlater].
  intros [= <- _]. by left.
Qed.

(** What the execution does when the glob does not find exactly one
    connection file. *)
Lemma execute_without_connection_file
    (session_info : json) (cmd : string) (k : kernel) (w : world) :
  length (glob_connection_files (runtime_listing k)) ≠ 1 →
  execute_cmd_in_jupyter session_info cmd k w = (Raise AssertionError, w).
Proof.
  intros Hlen. unfold StartUp.execute_cmd_in_jupyter.
  unfold mbind at 1, M_bind at 1.
  rewrite locate_connection_file_spec.
  by destruct (glob_connection_files (runtime_listing k)) as [|? [|? ?]].
Qed.

(** X11. The pre-warm execution, whatever its outcome, leaves the files as
    they were and sends no HTTP request; and the session descriptor it is
    given plays no part in it. *)
Theorem execution_leaves_files_alone
    (session_info session_info' : json) (cmd : string) (k : kernel)
    (w : world) :
  let r := execute_cmd_in_jupyter session_info cmd k w in
  files r.2 = files w
  ∧ count_gets (trace r.2) = count_gets (trace w)
  ∧ count_posts (trace r.2) = count_posts (trace w)
  ∧ execute_cmd_in_jupyter session_info' cmd k w = r.
Proof.
  cbn zeta. split; [|split; [|split; [|done]]].
  all: destruct (glob_connection_files (runtime_listing k))
         as [|connection_file [|other rest]] eqn:Hglob;
    [rewrite execute_without_connection_file by (by rewrite Hglob); done
    | | rewrite execute_without_connection_file
          by (rewrite Hglob; simpl; lia); done].
  all: rewrite (execute_cmd_in_jupyter_spec SESSION_PATH glob_dirs submit_took
                  overshoot session_info cmd k w connection_file Hglob).
  all: cbn zeta; destruct (first_iopub (msg_id k) 60000 (arrivals k));
    destruct (correlated_reply (msg_id k) 60000 (arrivals k)) as [[m d]|];
    cbn [fst snd files trace];
    rewrite ?count_gets_app, ?count_posts_app; try done;
    unfold count_gets, count_posts; simpl; lia.
Qed.

(** X12. With the connection file found, when the execution returns it has
    printed one reply, and that reply is a shell message of the kernel whose
    parent is the request just submitted: the reply to another request is
    never taken for it. *)
Theorem execution_prints_the_reply_to_its_request
    (session_info : json) (cmd : string) (k : kernel) (w : world)
    (connection_file : string) :
  glob_connection_files (runtime_listing k) = [connection_file] →
  (execute_cmd_in_jupyter session_info cmd k w).1 = Ok tt →
  ∃ reply elapsed,
    finished (trace (execute_cmd_in_jupyter session_info cmd k w).2)
    = finished (trace w) ++ [(reply, elapsed)]
    ∧ Shell (msg_id k) reply ∈ event <$> arrivals k.
Proof.
  intros Hone.
  rewrite (execute_cmd_in_jupyter_spec SESSION_PATH glob_dirs submit_took
             overshoot session_info cmd k w connection_file Hone).
  destruct (correlated_reply _ _ _) as [[m d]|] eqn:E; [|done].
  intros _. exists m, (submit_took + d)%N. cbn [snd trace]. split.
  - rewrite !finished_app.
    destruct (first_iopub _ _ _); simpl; by rewrite app_nil_r.
  - by eapply correlated_reply_addressed.
Qed.

End ExecutionMore.

(** ** More on orchestration *)

Section OrchestrationMore.

Variable SESSION_PATH : string.
Variable py_str : json → string.
Variable json_dumps : json → string.
Variable writable : string → bool.
Variable glob_dirs : string → list (string * list string).
Variable submit_took : N.
Variable overshoot : N.

Local Abbreviation create_session :=
  (StartUp.create_session SESSION_PATH py_str json_dumps writable).
Local Abbreviation execute_cmd_in_jupyter :=
  (StartUp.execute_cmd_in_jupyter SESSION_PATH glob_dirs submit_took overshoot).
Local Abbreviation main :=
  (StartUp.main SESSION_PATH py_str json_dumps writable glob_dirs submit_took
     overshoot).
Local Abbreviation script :=
  (StartUp.script SESSION_PATH py_str json_dumps writable glob_dirs submit_took
     overshoot).

#[local] Arguments failed_turn : simpl never.

Lemma waited_for_child_app (a b : list action) :
  waited_for_child (a ++ b) = waited_for_child a || waited_for_child b.
Proof. apply existsb_app. Qed.

Lemma failed_turn_no_child_wait (counter : nat) :
  waited_for_child (failed_turn counter) = false.
Proof. unfold failed_turn. by destruct (S counter mod 20 =? 0)%nat. Qed.

Lemma poll_no_child_wait (probes : list probe) (counter : nat) (w : world) :
  waited_for_child (trace (poll probes counter w).2)
  = waited_for_child (trace w).
Proof.
  revert counter w. induction probes as [|p rest IH]; intros counter w; [done|].
  rewrite poll_cons. destruct (ready (answer p)).
  - cbn [snd trace]. rewrite waited_for_child_app. simpl. by rewrite orb_false_r.
  - rewrite IH. cbn [trace].
    by rewrite waited_for_child_app, failed_turn_no_child_wait, orb_false_r.
Qed.

Lemma wait_for_server_no_child_wait (probes : list probe) (w : world) :
  waited_for_child (trace (wait_for_server probes w).2)
  = waited_for_child (trace w).
Proof.
  rewrite wait_for_server_unfold.
  pose proof (poll_no_child_wait probes 0 w) as H.
  destruct (poll probes 0 w) as [[[]|e|] w']; simpl in *; [|done..].
  rewrite waited_for_child_app, H. simpl. by rewrite orb_false_r.
Qed.

Lemma create_session_trace (resp : response) (w : world) :
  trace (create_session resp w).2
  = trace w ++ [HttpPost (BASE_URL +:+ "/api/sessions") (payload SESSION_PATH)].
Proof.
  by destruct (create_session_posts_once_aux SESSION_PATH py_str json_dumps
                 writable resp w).
Qed.

Lemma execute_no_child_wait
    (session_info : json) (cmd : string) (k : kernel) (w : world) :
  waited_for_child (trace (execute_cmd_in_jupyter session_info cmd k w).2)
  = waited_for_child (trace w).
Proof.
  destruct (StartUp.glob_connection_files SESSION_PATH glob_dirs
              (runtime_listing k)) as [|name [|name' rest]] eqn:Hm.
  - rewrite execute_without_connection_file; [done | by rewrite Hm].
  - rewrite (execute_cmd_in_jupyter_spec SESSION_PATH glob_dirs submit_took
               overshoot session_info cmd k w name Hm).
    cbn zeta. destruct (first_iopub (msg_id k) 60000 (arrivals k));
      destruct (correlated_reply (msg_id k) 60000 (arrivals k)) as [[m d]|];
      cbn [snd trace];
      rewrite !waited_for_child_app; simpl; by rewrite ?orb_false_r.
  - rewrite execute_without_connection_file; [done|].
    rewrite Hm. simpl. lia.
Qed.

(** X13. As long as the status endpoint does not answer 200 the script is
    blocked in the readiness poll: no session is requested, and no file is
    written. *)
Theorem script_blocks_until_server_ready (env : surroundings) (w : world) :
  Forall (λ q, ready (answer q) = false) (status_answers env) →
  (script env w).1 = Blocked
  ∧ count_posts (trace (script env w).2) = count_posts (trace w)
  ∧ files (script env w).2 = files w.
Proof.
  intros Hall. unfold StartUp.script, asyncio_run, StartUp.main. run.
  match goal with |- context [wait_for_server ?ps ?w0] =>
    pose proof (wait_for_server_all_failed ps w0 Hall) as Hb;
    destruct (wait_for_server_never_raises_aux ps w0) as (Hf & Hp);
    destruct (wait_for_server ps w0) as [o w']
  end.
  simpl in *. subst o. simpl. rewrite Hf, Hp. cbn [trace files].
  rewrite count_posts_app. change (count_posts [Spawn _]) with 0.
  split; [done|]. split; [lia | done].
Qed.

(** X14. The script waits for the server it started only when everything
    before succeeded: whenever it does not end normally, it has not waited
    for the child process. *)
Theorem script_waits_for_child_only_after_success
    (env : surroundings) (w : world) :
  waited_for_child (trace w) = false →
  (script env w).1 ≠ Ok tt →
  waited_for_child (trace (script env w).2) = false.
Proof.
  intros Hw. unfold StartUp.script, asyncio_run, StartUp.main. run.
  match goal with |- context [wait_for_server ?ps ?w0] =>
    pose proof (wait_for_server_no_child_wait ps w0) as H1;
    destruct (wait_for_server ps w0) as [[[]|e|] w1]
  end; cbn [snd trace] in H1;
    rewrite waited_for_child_app, Hw in H1; simpl in H1; simpl;
    [|by rewrite trace_cancel|done].
  pose proof (create_session_trace (session_answer env) w1) as H2.
  destruct (create_session (session_answer env) w1) as [[info|e|] w2];
    cbn [snd] in H2; simpl;
    [|rewrite trace_cancel, H2, waited_for_child_app, H1; done
     |rewrite H2, waited_for_child_app, H1; done].
  pose proof (execute_no_child_wait info JUPYTER_CMD (the_kernel env) w2) as H3.
  rewrite H2, waited_for_child_app, H1 in H3. simpl in H3.
  destruct (execute_cmd_in_jupyter info JUPYTER_CMD (the_kernel env) w2)
    as [[[]|e|] w3]; cbn [snd] in H3; simpl;
    [done | by rewrite trace_cancel | done].
Qed.

(** X16. When the server got ready and the session creation fails, the
    script ends with that failure right after the POST: the kernel is never
    contacted, nothing is held open and the child is not waited for. *)
Theorem refused_session_ends_the_script
    (env : surroundings) (w w1 : world) (e : exn) :
  wait_for_server (status_answers env)
    (World (now w)
       (trace w ++ [Spawn ["jupyter"; "server"; "--IdentityProvider.token="]])
       (files w) (drain w))
  = (Ok tt, w1) →
  (create_session (session_answer env) w1).1 = Raise e →
  (script env w).1 = Raise e
  ∧ trace (script env w).2
    = trace w1
      ++ [HttpPost (BASE_URL +:+ "/api/sessions") (payload SESSION_PATH)].
Proof.
  intros H1 H2. unfold StartUp.script, asyncio_run, StartUp.main. run.
  rewrite H1.
  pose proof (create_session_trace (session_answer env) w1) as Ht.
  destruct (create_session (session_answer env) w1) as [o w2].
  simpl in *. subst o. simpl. by rewrite trace_cancel.
Qed.

End OrchestrationMore.

(** ** More on the rotating metrics log *)

Section RotationMore.

Import Monitor.

Variable never_roll_empty : bool.

Local Abbreviation shouldRollover := (Monitor.shouldRollover never_roll_empty).
Local Abbreviation emit := (Monitor.emit never_roll_empty).
Local Abbreviation run := (Monitor.run never_roll_empty).
Local Abbreviation main := (Monitor.main never_roll_empty).

Implicit Types (m : gmap nat (list string)) (st : log_state) (h : handler).

Lemma emit_below_cap h st (line : string) :
  (bytes (base (store st)) + (N.of_nat (String.length line) + 1) < maxBytes h)%N →
  emit h st line
  = LogState (<[0 := base (store st) ++ [line]]> (store st)) (rollovers st).
Proof.
  intros Hlt. apply emit_no_rollover. unfold Monitor.shouldRollover.
  destruct (0 <? maxBytes h)%N; [|done].
  destruct (never_roll_empty && (bytes (base (store st)) =? 0)%N); [done|].
  apply N.leb_gt. lia.
Qed.

Lemma run_below_cap h (samples : list string) st :
  (bytes (base (store st)) + bytes samples < maxBytes h)%N →
  rollovers (run h samples st) = rollovers st
  ∧ base (store (run h samples st)) = base (store st) ++ samples
  ∧ (∀ i, i ≠ 0 → store (run h samples st) !! i = store st !! i).
Proof.
  revert st. induction samples as [|l rest IH]; intros st Hlt.
  - by rewrite app_nil_r.
  - rewrite run_cons. simpl in Hlt. rewrite emit_below_cap by lia.
    destruct (IH (LogState (<[0 := base (store st) ++ [l]]> (store st))
                    (rollovers st))) as (H1 & H2 & H3).
    { cbn [store]. rewrite base_insert, bytes_app. simpl. lia. }
    cbn [store rollovers] in *. rewrite base_insert in H2.
    split; [done|]. split; [by rewrite H2, <- app_assoc|].
    intros i Hi. rewrite H3 by done. by rewrite lookup_insert_ne.
Qed.

(** X17. As long as what is in the live file and the samples together stay
    under the 200 MB cap, logging never rotates: every sample is appended to
    the live file, in order, and the backups are not touched. *)
Theorem metrics_log_not_rotated_below_cap (samples : list string) st :
  (bytes (base (store st)) + total samples < maxBytes log_handler)%N →
  rollovers (main samples st) = rollovers st
  ∧ base (store (main samples st)) = base (store st) ++ samples
  ∧ (∀ i, i ≠ 0 → store (main samples st) !! i = store st !! i).
Proof. apply run_below_cap. Qed.

(** X18. When every sample line is shorter than the cap and the live file
    starts under the cap, the live file is under 200 MB after every
    sample. *)
Theorem metrics_log_live_file_under_cap (samples : list string) st (n : nat) :
  Forall (short log_handler) samples →
  (bytes (base (store st)) < maxBytes log_handler)%N →
  (bytes (base (store (main (take n samples) st))) < 200 * 1024 * 1024)%N.
Proof.
  intros Hshort Hlt.
  apply (run_base_under_cap never_roll_empty log_handler);
    [simpl; lia | | done].
  by apply Forall_take.
Qed.

(** X19. With two backups, as [log_handler] keeps, a sample that makes the
    handler rotate ends up alone in the new live file; the former live file
    is backup 1, and the former backup 1, if there was one, is backup 2. *)
Theorem metrics_log_rotation_shifts_files h st (line : string) :
  backupCount h = 2 →
  shouldRollover h (store st) line = true →
  let st' := emit h st line in
  rollovers st' = S (rollovers st)
  ∧ base (store st') = [line]
  ∧ store st' !! 1 = Some (base (store st))
  ∧ store st' !! 2
    = match store st !! 1 with Some c1 => Some c1 | None => store st !! 2 end.
Proof.
  intros Hcount Hroll. cbn zeta.
  destruct (emit_rotated_at never_roll_empty h st line Hcount Hroll)
    as (H0 & H1 & H2).
  split; [|done]. by rewrite emit_rollover.
Qed.

Lemma emit_keeps_a_suffix st (line : string) :
  ∃ dropped,
    on_disk (store st) ++ [line]
    = dropped ++ on_disk (store (emit log_handler st line)).
Proof.
  destruct (shouldRollover log_handler (store st) line) eqn:Hroll.
  - destruct (emit_rotated_at never_roll_empty log_handler st line eq_refl
                Hroll) as (H0 & H1 & H2).
    unfold on_disk. rewrite H0, H1, H2. unfold base at 2. simpl.
    destruct (store st !! 1) as [c1|]; simpl.
    + exists (default [] (store st !! 2)). by rewrite <- !app_assoc.
    + exists []. by rewrite <- !app_assoc.
  - exists []. rewrite emit_no_rollover by done. cbn [store]. unfold on_disk.
    rewrite base_insert, !lookup_insert_ne by done. by rewrite <- !app_assoc.
Qed.

(** X20. Logging through [log_handler] keeps the lines on disk in order,
    newest last, and loses old lines only: what is on disk afterwards, from
    backup 2 to the live file, is a suffix of what was on disk followed by
    the samples. *)
Theorem metrics_log_keeps_newest_lines (samples : list string) st :
  ∃ dropped,
    on_disk (store st) ++ samples
    = dropped ++ on_disk (store (main samples st)).
Proof.
  revert st. induction samples as [|l rest IH]; intros st.
  - exists []. by rewrite app_nil_r.
  - change (main (l :: rest) st) with (main rest (emit log_handler st l)).
    destruct (emit_keeps_a_suffix st l) as [d1 H1].
    destruct (IH (emit log_handler st l)) as [d2 H2].
    exists (d1 ++ d2).
    by rewrite (cons_middle l), app_assoc, H1, <- !app_assoc, H2.
Qed.

End RotationMore.

(** ** More worked examples *)

Section MoreExamples.

Import Sample.

Local Abbreviation create_session :=
  (StartUp.create_session home render render all_writable).
Local Abbreviation execute_cmd_in_jupyter :=
  (StartUp.execute_cmd_in_jupyter home no_dirs 2 80).
Local Abbreviation script :=
  (StartUp.script home render render all_writable no_dirs 2 80).

(** X2: twenty failed probes, one waiting line. *)
Lemma twenty_failures_one_waiting_line :
  count_waiting
    (trace (wait_for_server (twenty_failures ++ [Probe (Responded 200) 5])
              boot).2)
  = 1.
Proof.
  exact (wait_for_server_reports_every_20_failures twenty_failures
           (Probe (Responded 200) 5) [] boot
           (Forall_replicate _ 20 (Probe (Responded 503) 5) eq_refl) eq_refl).
Defined.

(** X4: a numeric kernel id leaves an empty kernel-id file behind. *)
Lemma numeric_id_leaves_empty_file :
  (create_session numeric_id boot).1 = Raise TypeError
  ∧ files (create_session numeric_id boot).2 !! "/root/.jupyter/kernel_id"
    = Some "".
Proof.
  destruct (create_session_non_string_id_truncates home render render
              all_writable numeric_id boot (JNum 7) eq_refl eq_refl)
    as (Hret & Hfile & _); [done | reflexivity |].
  split; [exact Hret | exact Hfile].
Defined.

(** X5: the id is the first key missing. *)
Lemma missing_id_is_named :
  (create_session idle_without_id boot).1 = Raise (KeyError "id").
Proof.
  exact (proj1 (create_session_names_first_missing_key home render render
                  all_writable idle_without_id boot _ eq_refl) eq_refl).
Defined.

(** X6: the session created twice. *)
Lemma created_twice :
  files (create_session created (create_session created boot).2).2
  = files (create_session created boot).2.
Proof.
  exact (create_session_overwrites home render render all_writable created
           boot "abc123" eq_refl eq_refl).
Defined.

(** X8: the paths under [/root]. *)
Lemma paths_under_root :
  StartUp.kernel_id_path home = "/root/.jupyter/kernel_id"
  ∧ StartUp.session_info_path home = "/root/.jupyter/.session_info"
  ∧ StartUp.runtime_dir home = "/root/.local/share/jupyter/runtime".
Proof.
  assert (home ≠ "") as Hne by done.
  exact (persisted_paths_under_home home Hne eq_refl).
Defined.

(** X9: the connection file of a plain home. *)
Lemma kernel_a_is_found :
  "/root/.local/share/jupyter/runtime/kernel-a.json"
  ∈ StartUp.glob_connection_files home no_dirs (listing 2).
Proof.
  apply (glob_finds_kernel_json_files home no_dirs (listing 2)); [reflexivity|].
  exists "a". split; [|reflexivity].
  change ("kernel-a.json"
          ∈ ["jpserver-214.json"; "kernel-a.json"; "kernel-b.json"]).
  right. left.
Defined.

(** X10: the same directory listed the other way round. *)
Lemma listing_reversed :
  StartUp.locate_connection_file home no_dirs (runtime_listing busy_kernel) boot
  = StartUp.locate_connection_file home no_dirs
      [ "jpserver-214.json"; "kernel-7f3a.json" ] boot.
Proof.
  refine (proj1 (discovery_ignores_listing_order home no_dirs 2 80 JNull
                   JUPYTER_CMD busy_kernel _ boot _)).
  apply perm_swap.
Defined.

(** X12: the reply to "m1", not the one to "m0". *)
Lemma busy_kernel_reply_is_addressed :
  ∃ r elapsed,
    finished
      (trace (execute_cmd_in_jupyter JNull JUPYTER_CMD busy_kernel boot).2)
    = finished (trace boot) ++ [(r, elapsed)]
    ∧ Shell (msg_id busy_kernel) r ∈ event <$> arrivals busy_kernel.
Proof.
  apply (execution_prints_the_reply_to_its_request home no_dirs 2 80 JNull
           JUPYTER_CMD busy_kernel boot
           "/root/.local/share/jupyter/runtime/kernel-7f3a.json" eq_refl).
  vm_compute. reflexivity.
Defined.

(** X13: a server that never answers 200. *)
Lemma unready_server_blocks : (script unready_run boot).1 = Blocked.
Proof.
  refine (proj1 (script_blocks_until_server_ready home render render
                   all_writable no_dirs 2 80 unready_run boot _)).
  by repeat constructor.
Defined.

(** X14: the kernel never answers, the child is not waited for. *)
Lemma silent_run_does_not_wait :
  waited_for_child (trace (script silent_run boot).2) = false.
Proof.
  apply (script_waits_for_child_only_after_success home render render
           all_writable no_dirs 2 80 silent_run boot eq_refl).
  vm_compute. discriminate.
Defined.

(** X15: everything succeeds. *)
Lemma good_run_holds_open :
  (script good_run boot).1 = Ok tt
  ∧ held_open (trace (script good_run boot).2) = true
  ∧ waited_for_child (trace (script good_run boot).2) = true.
Proof.
  pose (w1 := (wait_for_server three_probes spawned).2).
  pose (w2 := (create_session created w1).2).
  pose (w3 := (execute_cmd_in_jupyter (resp_json created) JUPYTER_CMD
                 busy_kernel w2).2).
  destruct (script_holds_open_after_execution home render render
              all_writable no_dirs 2 80 good_run boot w1 w2 w3 (resp_json created)) as [Hret Htrace];
    [vm_compute; reflexivity.. |].
  split; [exact Hret|]. rewrite Htrace.
  split; vm_compute; reflexivity.
Defined.

(** X16: the session is refused. *)
Lemma refused_run_ends_at_the_post :
  contacted_kernel (trace (script refused_run boot).2) = false.
Proof.
  pose (w1 := (wait_for_server three_probes spawned).2).
  destruct (refused_session_ends_the_script home render render
              all_writable no_dirs 2 80 refused_run boot w1 (Exception (error_message render (resp_json idle) 201)))
    as [_ Htrace]; [vm_compute; reflexivity.. |].
  rewrite Htrace. vm_compute. reflexivity.
Defined.

(** X17: two lines in a fresh log. *)
Lemma two_lines_are_appended :
  Monitor.base
    (Monitor.store
       (Monitor.main true [sample_line; sample_line] (Monitor.start ∅)))
  = [sample_line; sample_line].
Proof.
  refine (proj1 (proj2 (metrics_log_not_rotated_below_cap true
                          [sample_line; sample_line] (Monitor.start ∅) _))).
  vm_compute. reflexivity.
Defined.

(** X18: the live file after two lines. *)
Lemma two_lines_stay_under_cap :
  (Monitor.bytes
     (Monitor.base
        (Monitor.store
           (Monitor.main true (take 2 [sample_line; sample_line])
              (Monitor.start ∅))))
   < 200 * 1024 * 1024)%N.
Proof.
  apply metrics_log_live_file_under_cap.
  - repeat constructor; by vm_compute.
  - by vm_compute.
Defined.

(** X19: one more line on a live file that is nearly full. *)
Lemma small_log_is_rotated :
  Monitor.base
    (Monitor.store (Monitor.emit true small_handler small_log "a new line"))
  = ["a new line"]
  ∧ Monitor.store (Monitor.emit true small_handler small_log "a new line") !! 2
    = Some ["an older line"].
Proof.
  destruct (metrics_log_rotation_shifts_files true small_handler small_log
              "a new line" eq_refl) as (_ & Hbase & _ & H2);
    [vm_compute; reflexivity|].
  split; [exact Hbase | exact H2].
Defined.

End MoreExamples.
